(** * QueryTee: the question -> SQL -> answer pipeline of [app.py]

    A shallow embedding of the translation / execution / formatting
    pipeline of the T-shirt store assistant, and the properties its
    design document states about it.

    Python [str] values are sequences of Unicode code points, so text is
    modelled as [list N]; the regular expressions of the program are
    written in a small pattern language with the semantics of [re.sub];
    exceptions, the model client, the database connection and the
    Streamlit widgets are modelled by a state-and-exception monad over a
    world that records every external call in order. *)

From Stdlib Require Import List NArith ZArith Bool Arith Lia.
From Stdlib Require Import Strings.String Strings.Ascii Numbers.DecimalString.
Import ListNotations.

Local Open Scope N_scope.
Local Open Scope list_scope.

(* ================================================================== *)
(** * Text *)

(** A character is a Unicode code point; a Python [str] is a list of them. *)
Definition char := N.
Definition pystr := list char.

(** ASCII literals of the source, as code points. *)
Definition py (s : string) : pystr :=
  map N_of_ascii (list_ascii_of_string s).

Definition LF : char := 10.
Definition SPACE : char := 32.
Definition DQUOTE : char := 34.
Definition DOT : char := 46.
Definition BACKTICK : char := 96.

Fixpoint str_eqb (a b : pystr) : bool :=
  match a, b with
  | [], [] => true
  | x :: a', y :: b' => (x =? y) && str_eqb a' b'
  | _, _ => false
  end.

(** [s.startswith(p)] *)
Fixpoint startswith (p s : pystr) : bool :=
  match p, s with
  | [], _ => true
  | x :: p', y :: s' => (x =? y) && startswith p' s'
  | _ :: _, [] => false
  end.

(** [p in s] for strings: [p] occurs in [s] as a contiguous run. *)
Fixpoint contains (p s : pystr) : bool :=
  startswith p s ||
  match s with
  | [] => false
  | _ :: t => contains p t
  end.

(** [sep.join(parts)] *)
Fixpoint join (sep : pystr) (parts : list pystr) : pystr :=
  match parts with
  | [] => []
  | [a] => a
  | a :: rest => a ++ sep ++ join sep rest
  end.

Definition in_ranges (table : list (N * N)) (c : char) : bool :=
  existsb (fun r => (fst r <=? c) && (c <=? snd r)) table.

(** The characters [str.strip()] removes: those for which [str.isspace()]
    holds. *)
Definition whitespace_ranges : list (N * N) :=
  [ (9, 13); (28, 32); (133, 133); (160, 160); (5760, 5760); (8192, 8202);
    (8232, 8233); (8239, 8239); (8287, 8287); (12288, 12288) ].

Definition is_space : char -> bool := in_ranges whitespace_ranges.

(** [[A-Z]], [[a-z]] and [[a-zA-Z]]: without [re.IGNORECASE] these are the
    ASCII ranges only. *)
Definition is_upper (c : char) : bool := (65 <=? c) && (c <=? 90).
Definition is_lower (c : char) : bool := (97 <=? c) && (c <=? 122).
Definition is_alpha (c : char) : bool := is_lower c || is_upper c.

(** [\d] on a [str] pattern: any character of Unicode category Nd
    (decimal digit), of which [0-9] are the ASCII ones (Unicode 14 table). *)
Definition decimal_digit_ranges : list (N * N) :=
  [ (48, 57); (1632, 1641); (1776, 1785); (1984, 1993); (2406, 2415);
    (2534, 2543); (2662, 2671); (2790, 2799); (2918, 2927); (3046, 3055);
    (3174, 3183); (3302, 3311); (3430, 3439); (3558, 3567); (3664, 3673);
    (3792, 3801); (3872, 3881); (4160, 4169); (4240, 4249); (6112, 6121);
    (6160, 6169); (6470, 6479); (6608, 6617); (6784, 6793); (6800, 6809);
    (6992, 7001); (7088, 7097); (7232, 7241); (7248, 7257); (42528, 42537);
    (43216, 43225); (43264, 43273); (43472, 43481); (43504, 43513);
    (43600, 43609); (44016, 44025); (65296, 65305); (66720, 66729);
    (68912, 68921); (69734, 69743); (69872, 69881); (69942, 69951);
    (70096, 70105); (70384, 70393); (70736, 70745); (70864, 70873);
    (71248, 71257); (71360, 71369); (71472, 71481); (71904, 71913);
    (72016, 72025); (72784, 72793); (73040, 73049); (73120, 73129);
    (92768, 92777); (92864, 92873); (93008, 93017); (120782, 120831);
    (123200, 123209); (123632, 123641); (125264, 125273); (130032, 130041) ].

Definition is_digit : char -> bool := in_ranges decimal_digit_ranges.

Fixpoint lstrip (s : pystr) : pystr :=
  match s with
  | [] => []
  | c :: t => if is_space c then lstrip t else s
  end.

Definition rstrip (s : pystr) : pystr := rev (lstrip (rev s)).

(** [s.strip()] *)
Definition strip (s : pystr) : pystr := rstrip (lstrip s).

(* ================================================================== *)
(** * Regular expressions: the fragment the program uses *)

(** Every pattern of [app.py] is a sequence of one-character items: a
    literal, a class in a capturing group, or an optional literal. *)
Inductive atom : Type :=
| Lit (c : char)              (* the character itself, [\.] included *)
| Grp (p : char -> bool)      (* [(class)]: one character, captured *)
| Opt (c : char).             (* [c?], greedy *)

Definition regex := list atom.

(** A match anchored at the start of [s]: the number of characters it
    consumes and the captured groups, in order.  The optional item first
    tries to consume and falls back to matching nothing. *)
Fixpoint match_here (r : regex) (s : pystr) : option (nat * list char) :=
  match r with
  | [] => Some (0%nat, [])
  | Lit c :: r' =>
      match s with
      | x :: t =>
          if x =? c then
            match match_here r' t with
            | Some (n, g) => Some (S n, g)
            | None => None
            end
          else None
      | [] => None
      end
  | Grp p :: r' =>
      match s with
      | x :: t =>
          if p x then
            match match_here r' t with
            | Some (n, g) => Some (S n, x :: g)
            | None => None
            end
          else None
      | [] => None
      end
  | Opt c :: r' =>
      match s with
      | x :: t =>
          if x =? c then
            match match_here r' t with
            | Some (n, g) => Some (S n, g)
            | None => match_here r' s
            end
          else match_here r' s
      | [] => match_here r' s
      end
  end.

(** A replacement template: literal characters and [\i] back-references. *)
Inductive titem : Type :=
| TChr (c : char)
| TRef (i : nat).

Definition expand (tpl : list titem) (groups : list char) : pystr :=
  flat_map (fun it =>
              match it with
              | TChr c => [c]
              | TRef i => match nth_error groups (pred i) with
                          | Some x => [x]
                          | None => []
                          end
              end) tpl.

(** [re.sub(r, tpl, s)], scanning left to right; [skip] counts the
    characters of the current match still to be passed over.  Matches do
    not overlap; a match of length zero is replaced and the scan moves on
    by one character. *)
Fixpoint re_sub_from (r : regex) (tpl : list titem) (skip : nat) (s : pystr)
  : pystr :=
  match s with
  | [] =>
      match skip, match_here r [] with
      | O, Some (_, g) => expand tpl g
      | _, _ => []
      end
  | c :: t =>
      match skip with
      | S k => re_sub_from r tpl k t
      | O =>
          match match_here r s with
          | Some (S n, g) => expand tpl g ++ re_sub_from r tpl n t
          | Some (O, g) => expand tpl g ++ c :: re_sub_from r tpl 0 t
          | None => c :: re_sub_from r tpl 0 t
          end
      end
  end.

Definition re_sub (r : regex) (tpl : list titem) (s : pystr) : pystr :=
  re_sub_from r tpl 0 s.

Definition lits (s : pystr) : regex := map Lit s.

(* ================================================================== *)
(** * [clean_response_text] *)

(** The argument of [clean_response_text] is any Python object; only the
    [str] case carries data the function looks at. *)
Inductive pyobj : Type :=
| PyNone
| PyInt (z : Z)
| PyBool (b : bool)
| PyStr (s : pystr)
| PyBytes (b : list N).

(** [r'\.([A-Z])'] -> [r'. \1'] *)
Definition period_capital : regex := [Lit DOT; Grp is_upper].
Definition period_capital_repl : list titem := [TChr DOT; TChr SPACE; TRef 1].

(** [r'([a-z])([A-Z])'] -> [r'\1 \2'] *)
Definition lower_upper : regex := [Grp is_lower; Grp is_upper].

(** [r'(\d)([a-zA-Z])'] -> [r'\1 \2'] *)
Definition digit_letter : regex := [Grp is_digit; Grp is_alpha].

Definition spaced_pair : list titem := [TRef 1; TChr SPACE; TRef 2].

(** The three substitutions, in the order of the source. *)
Definition clean_text (text : pystr) : pystr :=
  let text := re_sub period_capital period_capital_repl text in
  let text := re_sub lower_upper spaced_pair text in
  let text := re_sub digit_letter spaced_pair text in
  text.

Definition clean_response_text (text : pyobj) : pystr :=
  match text with
  | PyStr s => clean_text s
  | _ => []
  end.

(* ================================================================== *)
(** * Extraction of the SQL statement from the model's output *)

(** [r'```sql\n?'] and [r'```\n?'] *)
Definition fence_sql : regex := lits (py "```sql") ++ [Opt LF].
Definition fence_bare : regex := lits (py "```") ++ [Opt LF].

(** Lines 82-86 of [natural_language_to_sql]: what is done to
    [response.text]. *)
Definition extract_sql (raw : pystr) : pystr :=
  let sql_query := strip raw in
  let sql_query := re_sub fence_sql [] sql_query in
  let sql_query := re_sub fence_bare [] sql_query in
  strip sql_query.

(* ================================================================== *)
(** * Exceptions *)

(** The result of evaluating a Python expression: a value, or a raised
    exception of which the program only ever uses [str(e)]. *)
Inductive Result (A : Type) : Type :=
| Ok (a : A)
| Exn (e : pystr).

Arguments Ok {A} a.
Arguments Exn {A} e.

(* ================================================================== *)
(** * Numbers as text *)

(** [str(n)] for a natural number. *)
Definition dec (n : N) : pystr := py (NilZero.string_of_uint (N.to_uint n)).

(** A Python [float]: not-a-number, an infinity, or the dyadic number
    [(-1)^neg * m * 2^e]. *)
Inductive pyfloat : Type :=
| FNan
| FInf (neg : bool)
| FNum (neg : bool) (m : N) (e : Z).

(** The integer nearest to [n / d], ties going to the even one. *)
Definition round_half_even (n d : N) : N :=
  let q := n / d in
  let r := n mod d in
  if d <? 2 * r then q + 1
  else if (2 * r =? d) && N.odd q then q + 1
  else q.

(** [m * 2^e] in hundredths, correctly rounded. *)
Definition hundredths (m : N) (e : Z) : N :=
  match e with
  | Z0 => m * 100
  | Zpos p => m * 2 ^ Npos p * 100
  | Zneg p => round_half_even (m * 100) (2 ^ Npos p)
  end.

Definition two_digits (n : N) : pystr :=
  if n <? 10 then py "0" ++ dec n else dec n.

(** [f"{x:.2f}"] *)
Definition format_2f (x : pyfloat) : pystr :=
  match x with
  | FNan => py "nan"
  | FInf false => py "inf"
  | FInf true => py "-inf"
  | FNum neg m e =>
      let h := hundredths m e in
      (if neg then py "-" else []) ++
      dec (h / 100) ++ py "." ++ two_digits (h mod 100)
  end.

(* ================================================================== *)
(** * Result rows and data frames *)

(** A value stored in a result row.  The program observes such a value in
    two ways only: it formats it inside an f-string, and it applies
    [float()] to it; a cell is the pair of these two observations. *)
Record cell : Type := {
  cell_str : pystr;              (* [f"{v}"], which is [str(v)] *)
  cell_float : Result pyfloat    (* [float(v)], which may raise *)
}.

(** The value pandas puts where a row has no entry for a column. *)
Definition NaN : cell := {| cell_str := py "nan"; cell_float := Ok FNan |}.

(** A row as the cursor returns it with [dictionary=True]: an ordered
    mapping from column name to value. *)
Definition record := list (pystr * cell).

Fixpoint lookup (k : pystr) (d : list (pystr * cell)) : option cell :=
  match d with
  | [] => None
  | (k', v) :: d' => if str_eqb k k' then Some v else lookup k d'
  end.

Definition has_key (k : pystr) (d : list (pystr * cell)) : bool :=
  existsb (str_eqb k) (map fst d).

Record DataFrame : Type := {
  columns : list pystr;
  data : list (list cell)
}.

Definition add_key (acc : list pystr) (k : pystr) : list pystr :=
  if existsb (str_eqb k) acc then acc else acc ++ [k].

(** The frame [pd.DataFrame] builds from a list of dicts, as [iterrows]
    reads it: the columns are the keys in order of first appearance, and
    a missing entry is filled with NaN.  The rows are given with their
    values as the frame yields them.  What pandas does to the values of a
    result set on the way in and out (None becomes NaN among numbers, an
    int becomes a float next to floats, and more, differently from one
    version to the next) is not decided here: it is [frame_rows] of the
    environment, applied wherever the program builds a frame from the
    rows of the database. *)
Definition pd_DataFrame (results : list record) : DataFrame :=
  let cols :=
    fold_left (fun acc r => fold_left add_key (map fst r) acc) results [] in
  {| columns := cols;
     data := map (fun r => map (fun c => match lookup c r with
                                         | Some v => v
                                         | None => NaN
                                         end) cols) results |}.

(** [df.empty]: some axis has length zero. *)
Definition df_empty (df : DataFrame) : bool :=
  match columns df, data df with
  | [], _ => true
  | _, [] => true
  | _, _ => false
  end.

(** [len(df)] *)
Definition df_len (df : DataFrame) : N := N.of_nat (List.length (data df)).

(** [df.head(n)] *)
Definition df_head (n : nat) (df : DataFrame) : DataFrame :=
  {| columns := columns df; data := firstn n (data df) |}.

(** A row as [df.iterrows()] yields it: a Series whose index is the
    frame's columns. *)
Definition Series := list (pystr * cell).

Definition iterrows (df : DataFrame) : list Series :=
  map (fun vals => combine (columns df) vals) (data df).

(** [row[k]] *)
Definition getitem (row : Series) (k : pystr) : Result cell :=
  match lookup k row with
  | Some v => Ok v
  | None => Exn (py "'" ++ k ++ py "'")
  end.

(** [f"{row.get(k, 'N/A')}"] *)
Definition get_or_na (row : Series) (k : pystr) : pystr :=
  match lookup k row with
  | Some v => cell_str v
  | None => py "N/A"
  end.

(** [filter(None, details)]: the entries that are neither [None] nor the
    empty string. *)
Fixpoint filter_truthy (details : list (option pystr)) : list pystr :=
  match details with
  | [] => []
  | Some (c :: s) :: rest => (c :: s) :: filter_truthy rest
  | _ :: rest => filter_truthy rest
  end.

Definition bind_result {A B} (r : Result A) (k : A -> Result B) : Result B :=
  match r with
  | Ok a => k a
  | Exn e => Exn e
  end.

(* ================================================================== *)
(** * [clean_response_text] as Python runs it *)

(** [isinstance(x, str)] *)
Definition isinstance_str (x : pyobj) : bool :=
  match x with
  | PyStr _ => true
  | _ => false
  end.

(** [type(x).__name__] *)
Definition type_name (x : pyobj) : pystr :=
  match x with
  | PyNone => py "NoneType"
  | PyInt _ => py "int"
  | PyBool _ => py "bool"
  | PyStr _ => py "str"
  | PyBytes _ => py "bytes"
  end.

(** [re.sub(r, tpl, x)] with a [str] pattern, for any object [x]: a string
    is scanned, anything else raises [TypeError]. *)
Definition re_sub_object (r : regex) (tpl : list titem) (x : pyobj)
  : Result pystr :=
  match x with
  | PyStr s => Ok (re_sub r tpl s)
  | PyBytes _ =>
      Exn (py "cannot use a string pattern on a bytes-like object")
  | _ =>
      Exn (py "expected string or bytes-like object, got '" ++ type_name x
           ++ py "'")
  end.

(** Lines 20-23: the three substitutions, on whatever they are given. *)
Definition substitutions_run (text : pyobj) : Result pystr :=
  bind_result (re_sub_object period_capital period_capital_repl text)
    (fun text =>
  bind_result (re_sub_object lower_upper spaced_pair (PyStr text))
    (fun text =>
  bind_result (re_sub_object digit_letter spaced_pair (PyStr text))
    (fun text =>
  Ok text))).

(** Lines 16-23, with the exceptions Python can raise on the way. *)
Definition clean_response_text_run (text : pyobj) : Result pystr :=
  if negb (isinstance_str text) then Ok []
  else substitutions_run text.

(* ================================================================== *)
(** * [format_dataframe_simple] *)

(** The separator of the detail line, as the source file has it: the
    code points U+00E2, U+20AC, U+00A2 between two spaces. *)
Definition detail_sep : pystr := [SPACE; 226; 8364; 162; SPACE].

(** [f"<label>{row[k]}<suffix>" if k in row else None] *)
Definition detail (row : Series) (label k suffix : pystr)
  : Result (option pystr) :=
  if has_key k row then
    bind_result (getitem row k) (fun v =>
    Ok (Some (label ++ cell_str v ++ suffix)))
  else Ok None.

(** [f"Price: ${float(row['price_per_item']):.2f}" if ... else None] *)
Definition price_detail (row : Series) : Result (option pystr) :=
  if has_key (py "price_per_item") row then
    bind_result (getitem row (py "price_per_item")) (fun v =>
    bind_result (cell_float v) (fun x =>
    Ok (Some (py "Price: $" ++ format_2f x))))
  else Ok None.

(** The labelled summary of a row that has a brand and a product name. *)
Definition labelled_row (row : Series) : Result pystr :=
  let header :=
    py "**" ++ get_or_na row (py "brand") ++ py " - " ++
    get_or_na row (py "product_name") ++ py "**" ++ [LF] in
  bind_result (detail row (py "Size: ") (py "size") []) (fun d1 =>
  bind_result (detail row (py "Color: ") (py "color") []) (fun d2 =>
  bind_result (price_detail row) (fun d3 =>
  bind_result (detail row (py "Stock: ") (py "stock_quantity") (py " units"))
    (fun d4 =>
  Ok (header ++ join detail_sep (filter_truthy [d1; d2; d3; d4])
        ++ [LF; LF]))))).

(** The generic rendering of any other row. *)
Definition generic_row (row : Series) : pystr :=
  join (py " | ") (map (fun cv => fst cv ++ py ": " ++ cell_str (snd cv)) row)
  ++ [LF; LF].

(** The text one iteration of the loop appends to [result_text]. *)
Definition render_row (row : Series) : Result pystr :=
  if has_key (py "brand") row && has_key (py "product_name") row
  then labelled_row row
  else Ok (generic_row row).

(** The loop over [df.iterrows()], accumulating [result_text]. *)
Fixpoint render_rows (result_text : pystr) (rows : list Series)
  : Result pystr :=
  match rows with
  | [] => Ok result_text
  | row :: rest =>
      bind_result (render_row row) (fun t =>
      render_rows (result_text ++ t) rest)
  end.

Definition format_dataframe_simple (df : DataFrame) : Result pystr :=
  if df_empty df then Ok (py "No results found.")
  else
    let result_text :=
      py "Found " ++ dec (df_len df) ++ py " results:" ++ [LF; LF] in
    render_rows result_text (iterrows df).

(* ================================================================== *)
(** * The world outside the program *)

(** Every call that leaves the program, in the order it is made. *)
Inductive event : Type :=
| ModelCall (prompt : pystr)     (* [self.model.generate_content(prompt)] *)
| DbConnect                      (* [mysql.connector.connect(...)] *)
| DbCursor                       (* [conn.cursor(dictionary=True)] *)
| DbExecute (sql : pystr)        (* [cursor.execute(sql)] *)
| DbFetchall                     (* [cursor.fetchall()] *)
| CursorClose                    (* [cursor.close()] *)
| ConnPing                       (* [conn.is_connected()] *)
| ConnClose                      (* [conn.close()] *)
| StError (msg : pystr)
| StSuccess (msg : pystr)
| StWarning (msg : pystr)
| StSubheader (msg : pystr)
| StMarkdown (msg : pystr)
| StCode (body : pystr)
| StDataframe (df : DataFrame).

(** The connection of the current request. *)
Inductive link : Type :=
| Unopened      (* none was acquired *)
| Connected     (* open *)
| Dropped       (* lost by a failure; [is_connected()] answers False *)
| Closed.       (* [close()] was called *)

Record World : Type := {
  trace : list event;
  conn : link
}.

Definition fresh : World := {| trace := []; conn := Unopened |}.

(** Where a statement can fail between acquiring the connection and
    having its rows. *)
Inductive stage : Type := AtCursor | AtExecute | AtFetchall.

(** What the database does with a statement: it yields rows, or one of
    the three calls raises, leaving the connection alive or not. *)
Inductive run : Type :=
| Rows (results : list record)
| Fails (at_stage : stage) (e : pystr) (alive : bool).

(** What [mysql.connector.connect] does: it returns a connection, or it
    raises, a [mysql.connector.Error] or an exception of another type. *)
Inductive acquire : Type :=
| Acquired
| Refused (e : pystr)            (* a [mysql.connector.Error] *)
| Escapes (e : pystr).           (* any other exception *)

(** The collaborators of one request.  [generate_content] stands for the
    call together with the [.text] access on its response.  [frame_rows]
    is what pandas makes of the values of a result set: the rows of the
    database go in, and the rows come out with each value as the frame
    built from them yields it to [iterrows]. *)
Record Env : Type := {
  today : pystr;                              (* [datetime.now()], as %Y-%m-%d *)
  generate_content : pystr -> Result pystr;
  connect : acquire;
  run_sql : pystr -> run;
  to_string : DataFrame -> pystr;             (* [df.to_string(index=False)] *)
  frame_rows : list record -> list record     (* the rows as a frame yields them *)
}.

(* ================================================================== *)
(** * Computations: state and exceptions *)

Definition M (A : Type) : Type := World -> Result A * World.

Definition ret {A} (a : A) : M A := fun w => (Ok a, w).

Definition raise {A} (e : pystr) : M A := fun w => (Exn e, w).

Definition bind {A B} (m : M A) (k : A -> M B) : M B :=
  fun w =>
    match m w with
    | (Ok a, w') => k a w'
    | (Exn e, w') => (Exn e, w')
    end.

(** [try: body except Exception as e: handler] *)
Definition try_except {A} (body : M A) (handler : pystr -> M A) : M A :=
  fun w =>
    match body w with
    | (Ok a, w') => (Ok a, w')
    | (Exn e, w') => handler e w'
    end.

Definition lift {A} (r : Result A) : M A := fun w => (r, w).

Definition log (ev : event) : M unit :=
  fun w => (Ok tt, {| trace := trace w ++ [ev]; conn := conn w |}).

Definition set_conn (l : link) : M unit :=
  fun w => (Ok tt, {| trace := trace w; conn := l |}).

Definition get_conn : M link := fun w => (Ok (conn w), w).

Declare Scope monad_scope.
Delimit Scope monad_scope with monad.
Notation "x <- c1 ;; c2" := (bind c1 (fun x => c2))
  (at level 61, c1 at next level, right associativity) : monad_scope.
Notation "c1 ;; c2" := (bind c1 (fun _ => c2))
  (at level 61, right associativity) : monad_scope.
Local Open Scope monad_scope.

(** A failure of a database call: the connection stays as it is or is
    lost, and the exception is raised. *)
Definition db_failure {A} (e : pystr) (alive : bool) : M A :=
  (if alive then ret tt else set_conn Dropped) ;;
  raise e.

Definition conn_cursor (o : run) : M unit :=
  log DbCursor ;;
  match o with
  | Fails AtCursor e alive => db_failure e alive
  | _ => ret tt
  end.

Definition cursor_execute (sql : pystr) (o : run) : M unit :=
  log (DbExecute sql) ;;
  match o with
  | Fails AtExecute e alive => db_failure e alive
  | _ => ret tt
  end.

Definition cursor_fetchall (o : run) : M (list record) :=
  log DbFetchall ;;
  match o with
  | Rows results => ret results
  | Fails _ e alive => db_failure e alive
  end.

Definition cursor_close : M unit := log CursorClose.

Definition conn_close : M unit := log ConnClose ;; set_conn Closed.

Definition conn_is_connected : M bool :=
  log ConnPing ;;
  l <- get_conn ;;
  ret (match l with Connected => true | _ => false end).

Definition model_generate (env : Env) (prompt : pystr) : M pystr :=
  log (ModelCall prompt) ;;
  lift (generate_content env prompt).

(** Python truth of [None]-or-string and of [None]-or-list. *)
Definition truthy {A} (x : option (list A)) : bool :=
  match x with
  | Some (_ :: _) => true
  | _ => false
  end.

(* ================================================================== *)
(** * [TShirtStoreAI] *)

(** Returns whether a connection was obtained ([None] in the source
    otherwise); the connection itself is the [conn] of the world.  Only a
    [mysql.connector.Error] is caught: any other exception leaves the
    function. *)
Definition get_db_connection (env : Env) : M bool :=
  log DbConnect ;;
  match connect env with
  | Acquired => set_conn Connected ;; ret true
  | Refused e =>
      log (StError (py "Database connection failed: " ++ e)) ;;
      ret false
  | Escapes e => raise e
  end.

(** [get_schema_info] *)
Definition get_schema_info (env : Env) : pystr :=
  py "
        Database Schema:
        
        Table: inventory
        - id (INT, PRIMARY KEY), brand (VARCHAR), product_name (VARCHAR), size (ENUM), 
        - color (VARCHAR), stock_quantity (INT), price_per_item (DECIMAL)
        
        Table: discounts
        - id (INT, PRIMARY KEY), brand (VARCHAR), product_name (VARCHAR), 
        - discount_type (ENUM: 'percentage', 'fixed_amount'), discount_value (DECIMAL), 
        - start_date (DATE), end_date (DATE), min_quantity (INT), is_active (BOOLEAN)
        
        Current date for all queries is: " ++
  today env ++
  py "
        ".

(** The prompt of [natural_language_to_sql]. *)
Definition translation_prompt (env : Env) (question : pystr) : pystr :=
  py "
        You are a SQL expert for a t-shirt store database. Your goal is to convert a natural language question into a single, accurate SQL query.
        " ++
  get_schema_info env ++
  py "
        ---
        **CRITICAL RULES:**
        1.  **Always JOIN for Discounts:** If the question mentions " ++ [DQUOTE] ++ py "discount," ++ [DQUOTE] ++ py " " ++ [DQUOTE] ++ py "sale," ++ [DQUOTE] ++ py " or " ++ [DQUOTE] ++ py "price," ++ [DQUOTE] ++ py " you **MUST** JOIN `inventory` (aliased as `i`) with `discounts` (aliased as `d`) on `i.brand = d.brand`.
        2.  **Handle Minimum Quantity Correctly:** A user's question about a single item (e.g., " ++ [DQUOTE] ++ py "a nike shirt" ++ [DQUOTE] ++ py ") implies a quantity of 1. If the discount in the database requires a `min_quantity` > 1, your query **MUST NOT** filter this discount out. The goal is to show that a discount *is available* but has conditions. Therefore, **DO NOT** add a `WHERE` clause that filters based on `min_quantity` unless the user explicitly states a quantity (e.g., " ++ [DQUOTE] ++ py "discount for 3 shirts" ++ [DQUOTE] ++ py ").
        3.  **Filter by Active Discounts:** Always include this condition in your `WHERE` clause for discount-related queries: `d.is_active = TRUE AND CURDATE() BETWEEN d.start_date AND d.end_date`.
        4.  **Use LOWER() for Case-Insensitive Matches:** Always wrap text-based columns like `brand` or `color` in the `LOWER()` function in the `WHERE` clause for comparisons.
        5.  **Return Only the SQL Query:** Your entire response should be only the SQL code, with no explanations or markdown.
        ---
        Question: " ++
  question ++
  py "
        SQL Query:
        ".

(** The prompt of [format_response]. *)
Definition response_prompt (env : Env) (question : pystr) (df : DataFrame) : pystr :=
  py "
        Based on this database query result, provide a natural, conversational response to the original question.
        Original question: " ++
  question ++
  py "
        Query results: " ++
  to_string env (df_head 10 df) ++
  py "
        
        Make the response:
        1. Conversational and helpful.
        2. If the query result contains a 'min_quantity' greater than 1, explain that condition to the user (e.g., " ++ [DQUOTE] ++ py "This discount applies if you buy X or more items." ++ [DQUOTE] ++ py ").
        3. Summarize the results clearly. Use bullet points for lists of items.
        4. Ensure correct grammar, punctuation, and spacing between sentences.
        5. Use proper currency formatting ($XX.XX).
        
        Response:
        ".

Definition natural_language_to_sql (env : Env) (question : pystr) : M pystr :=
  let prompt := translation_prompt env question in
  try_except
    (text <- model_generate env prompt ;;
     ret (extract_sql text))
    (fun e => ret (py "Error generating SQL: " ++ e)).

Definition execute_query (env : Env) (sql_query : pystr)
  : M (option (list record) * option pystr) :=
  have_conn <- get_db_connection env ;;
  if negb have_conn then ret (None, Some (py "Database connection failed"))
  else
    let o := run_sql env sql_query in
    try_except
      (conn_cursor o ;;
       cursor_execute sql_query o ;;
       results <- cursor_fetchall o ;;
       cursor_close ;;
       conn_close ;;
       ret (Some results, None))
      (fun e =>
         connected <- conn_is_connected ;;
         (if connected then conn_close else ret tt) ;;
         ret (None, Some e)).

Definition format_response (env : Env) (question : pystr)
    (results : option (list record)) (error : option pystr) : M pystr :=
  if truthy error then
    ret (py "I apologize, but I encountered an error processing your question: "
         ++ match error with Some e => e | None => [] end)
  else if negb (truthy results) then
    ret (py "I couldn't find any matching results for your question.")
  else
    let df :=
      pd_DataFrame
        (frame_rows env (match results with Some r => r | None => [] end)) in
    let prompt := response_prompt env question df in
    try_except
      (text <- model_generate env prompt ;;
       let formatted_response := strip text in
       ret (clean_response_text (PyStr formatted_response)))
      (fun _ => lift (format_dataframe_simple df)).

(* ================================================================== *)
(** * [main]: the "Get Answer" button *)

(** Lines 186-208.  The spinner and the expander only group widgets and
    are not recorded. *)
Definition main_get_answer (env : Env) (question : pystr) : M unit :=
  match question with
  | [] => log (StWarning (py "Please enter a question!"))
  | _ :: _ =>
      sql_query <- natural_language_to_sql env question ;;
      if startswith (py "Error") sql_query then log (StError sql_query)
      else
        re <- execute_query env sql_query ;;
        let results := fst re in
        let error := snd re in
        response <- format_response env question results error ;;
        log (StSubheader (py "Answer:")) ;;
        log (StSuccess response) ;;
        log (StMarkdown (py "**Generated SQL Query:**")) ;;
        log (StCode sql_query) ;;
        if truthy results then
          log (StMarkdown (py "**Raw Query Results:**")) ;;
          log (StDataframe
                 (pd_DataFrame
                    (frame_rows env
                       (match results with Some r => r | None => [] end))))
        else ret tt
  end.

(** The text the request shows as its answer: the message of the last
    [st.error] or [st.success]. *)
Fixpoint answer_text (tr : list event) : option pystr :=
  match tr with
  | [] => None
  | ev :: rest =>
      match answer_text rest with
      | Some t => Some t
      | None =>
          match ev with
          | StError msg => Some msg
          | StSuccess msg => Some msg
          | _ => None
          end
      end
  end.


(* ================================================================== *)
(** * Vocabulary of the statements *)

(** The string begins, or ends, with a character [strip()] would remove. *)
Definition leading_space (s : pystr) : bool :=
  match s with
  | c :: _ => is_space c
  | [] => false
  end.

Definition trailing_space (s : pystr) : bool := leading_space (rev s).

(** A code fence, bare. *)
Definition ticks3 : pystr := [BACKTICK; BACKTICK; BACKTICK].

(** Some character in class [P] is immediately followed by one in [Q]. *)
Fixpoint has_pair (P Q : char -> bool) (s : pystr) : bool :=
  match s with
  | x :: ((y :: _) as r) => (P x && Q y) || has_pair P Q r
  | _ => false
  end.

(** What substituting [r'(P)(Q)'] by [r'\1 \2'] comes to: a space between
    the two characters of every match, the scan resuming after the
    second. *)
Fixpoint space_pairs (P Q : char -> bool) (s : pystr) : pystr :=
  match s with
  | x :: ((y :: t) as r) =>
      if P x && Q y then x :: SPACE :: y :: space_pairs P Q t
      else x :: space_pairs P Q r
  | _ => s
  end.


(** The world [w] after further events, with its connection in state [l]. *)
Definition after (w : World) (evs : list event) (l : link) : World :=
  {| trace := trace w ++ evs; conn := l |}.

(** The database calls made for a statement up to the one that fails. *)
Definition calls_until (st : stage) (sql : pystr) : list event :=
  match st with
  | AtCursor => [DbCursor]
  | AtExecute => [DbCursor; DbExecute sql]
  | AtFetchall => [DbCursor; DbExecute sql; DbFetchall]
  end.

(* ================================================================== *)
(** * Sample values *)

(** A [str] value that does not spell a number: [float()] raises. *)
Definition word_cell (s : pystr) : cell :=
  {| cell_str := s;
     cell_float :=
       Exn (py "could not convert string to float: '" ++ s ++ py "'") |}.

(** An [int] value below [2^53], which [float()] converts exactly. *)
Definition int_cell (n : N) : cell :=
  {| cell_str := dec n; cell_float := Ok (FNum false n 0) |}.

(** The [float] 19.5, that is [39 * 2^-1]. *)
Definition float_19_5 : cell :=
  {| cell_str := py "19.5"; cell_float := Ok (FNum false 39 (-1)) |}.

(** A value the frame yields as [None]. *)
Definition null_cell : cell :=
  {| cell_str := py "None";
     cell_float :=
       Exn (py "float() argument must be a string or a real number, not 'NoneType'") |}.

Definition nike_row : record :=
  [ (py "brand", word_cell (py "Nike"));
    (py "product_name", word_cell (py "Tee"));
    (py "size", word_cell (py "L"));
    (py "color", word_cell (py "Black"));
    (py "price_per_item", float_19_5);
    (py "stock_quantity", int_cell 3) ].

(** A product whose price the query returns as text, with its currency
    sign: a [str] in every frame, which [float()] rejects. *)
Definition tagged_price_row : record :=
  [ (py "brand", word_cell (py "Nike"));
    (py "product_name", word_cell (py "Tee"));
    (py "price_per_item", word_cell (py "$19.50")) ].

Definition select_all : pystr := py "SELECT * FROM inventory".

(** A world in which the database is reachable and holds [rows], the
    model translates every question into [select_all], and answers the
    narration prompt with [narration].  It is used with rows whose values
    pandas leaves as they are. *)
Definition sample_env (rows : list record) (narration : Result pystr) : Env :=
  {| today := py "2024-01-01";
     generate_content := fun prompt =>
       if contains (py "You are a SQL expert") prompt
       then Ok select_all else narration;
     connect := Acquired;
     run_sql := fun _ => Rows rows;
     to_string := fun _ => [];
     frame_rows := fun rows => rows |}.

Definition sample_question : pystr := py "Do we have Nike shirts in size L?".

(** A world whose model gives the same reply to every prompt. *)
Definition constant_env (reply : Result pystr) : Env :=
  {| today := py "2024-01-01";
     generate_content := fun _ => reply;
     connect := Acquired;
     run_sql := fun _ => Rows [];
     to_string := fun _ => [];
     frame_rows := fun rows => rows |}.

(* ================================================================== *)
(** * Further vocabulary *)

(** The text without its spaces. *)
Definition despace (s : pystr) : pystr :=
  filter (fun c => negb (c =? SPACE)) s.

(** None of the three defects [clean_response_text] repairs occurs. *)
Definition well_spaced (s : pystr) : bool :=
  negb (has_pair (fun c => c =? DOT) is_upper s) &&
  negb (has_pair is_lower is_upper s) &&
  negb (has_pair is_digit is_alpha s).

Definition is_model_call (ev : event) : bool :=
  match ev with ModelCall _ => true | _ => false end.

Definition is_connect (ev : event) : bool :=
  match ev with DbConnect => true | _ => false end.

Definition is_execute (ev : event) : bool :=
  match ev with DbExecute _ => true | _ => false end.

Definition count (p : event -> bool) (evs : list event) : nat :=
  List.length (filter p evs).

(** The header line of the fallback text for [n] rows. *)
Definition found_header (n : N) : pystr :=
  py "Found " ++ dec n ++ py " results:" ++ [LF; LF].

(** A world whose database cannot be reached. *)
Definition unreachable_env (e : pystr) : Env :=
  {| today := py "2024-01-01";
     generate_content := fun prompt =>
       if contains (py "You are a SQL expert") prompt
       then Ok select_all else Exn (py "quota");
     connect := Refused e;
     run_sql := fun _ => Rows [];
     to_string := fun _ => [];
     frame_rows := fun rows => rows |}.

(** A world whose database rejects every statement. *)
Definition rejecting_env (st : stage) (e : pystr) (alive : bool) : Env :=
  {| today := py "2024-01-01";
     generate_content := fun prompt =>
       if contains (py "You are a SQL expert") prompt
       then Ok select_all else Exn (py "quota");
     connect := Acquired;
     run_sql := fun _ => Fails st e alive;
     to_string := fun _ => [];
     frame_rows := fun rows => rows |}.

(** A row of a query that selects no product columns. *)
Definition count_row : record := [ (py "total", int_cell 42) ].

(* ================================================================== *)
(** * [main]: the "Quick Stats" panel *)

(** A value of a statistics row, by what the panel does with it: it shows
    it in a metric, tests its truth, and formats it with [.2f]. *)
Record stat : Type := {
  stat_shown : pystr;           (* the value as [st.metric] displays it *)
  stat_truthy : bool;           (* [bool(v)] *)
  stat_fixed2 : Result pystr    (* [f"{v:.2f}"], which may raise *)
}.

(** The row [cursor.fetchone()] returns, a dict. *)
Definition stat_row := list (pystr * stat).

(** What the database does with one statistics query: [fetchone()] gives
    the first row or [None], or [execute] or [fetchone] raises. *)
Inductive fetch : Type :=
| Fetched (row : option stat_row)
| Broken (at_fetchone : bool) (e : pystr) (alive : bool).

(** The collaborators of the panel.  The connection is acquired as in
    the pipeline. *)
Record Panel : Type := {
  panel_env : Env;
  open_cursor : option (pystr * bool);  (* [conn.cursor()] raising, if it does *)
  fetch_one : pystr -> fetch
}.

(** The panel makes two calls the pipeline never makes. *)
Inductive panel_event : Type :=
| Shared (ev : event)
| DbFetchone                        (* [cursor.fetchone()] *)
| StMetric (label value : pystr).   (* [st.metric(label, value)] *)

Record Screen : Type := {
  shown : list panel_event;
  wire : link
}.

Definition PM (A : Type) : Type := Screen -> Result A * Screen.

Definition pret {A} (a : A) : PM A := fun s => (Ok a, s).

Definition pbind {A B} (m : PM A) (k : A -> PM B) : PM B :=
  fun s =>
    match m s with
    | (Ok a, s') => k a s'
    | (Exn e, s') => (Exn e, s')
    end.

Definition ptry {A} (body : PM A) (handler : pystr -> PM A) : PM A :=
  fun s =>
    match body s with
    | (Ok a, s') => (Ok a, s')
    | (Exn e, s') => handler e s'
    end.

(** A computation of the pipeline, run on the connection of the panel;
    the events it records are added to those of the screen. *)
Definition shared {A} (m : M A) : PM A :=
  fun s =>
    let rw := m {| trace := []; conn := wire s |} in
    (fst rw,
     {| shown := shown s ++ map Shared (trace (snd rw));
        wire := conn (snd rw) |}).

Definition plog (ev : panel_event) : PM unit :=
  fun s => (Ok tt, {| shown := shown s ++ [ev]; wire := wire s |}).

Declare Scope panel_scope.
Delimit Scope panel_scope with panel.
Notation "x <- c1 ;; c2" := (pbind c1 (fun x => c2))
  (at level 61, c1 at next level, right associativity) : panel_scope.
Notation "c1 ;; c2" := (pbind c1 (fun _ => c2))
  (at level 61, right associativity) : panel_scope.

(** The five queries, in the order of the dict. *)
Definition queries : list (pystr * pystr) :=
  [ (py "Total Products", py "SELECT COUNT(*) as total FROM inventory");
    (py "Brands Available",
     py "SELECT COUNT(DISTINCT brand) as total FROM inventory");
    (py "Low Stock Items",
     py "SELECT COUNT(*) as total FROM inventory WHERE stock_quantity < 10");
    (py "Active Discounts",
     py "SELECT COUNT(*) as total FROM discounts WHERE is_active = TRUE AND CURDATE() BETWEEN start_date AND end_date");
    (py "Average Price",
     py "SELECT AVG(price_per_item) as avg_price FROM inventory") ].

(** [result[k]] *)
Definition stat_item (result : stat_row) (k : pystr) : Result stat :=
  match find (fun kv => str_eqb k (fst kv)) result with
  | Some kv => Ok (snd kv)
  | None => Exn (py "'" ++ k ++ py "'")
  end.

(** The value stored in [stats[key]] for the row a query returned. *)
Definition stat_entry (key : pystr) (result : option stat_row)
  : Result pystr :=
  if str_eqb key (py "Average Price") then
    match result with
    | Some (kv :: row) =>
        bind_result (stat_item (kv :: row) (py "avg_price")) (fun v =>
        if stat_truthy v then
          bind_result (stat_fixed2 v) (fun t => Ok (py "$" ++ t))
        else Ok (py "$0.00"))
    | _ => Ok (py "$0.00")
    end
  else
    match result with
    | Some (kv :: row) =>
        bind_result (stat_item (kv :: row) (py "total")) (fun v =>
        Ok (stat_shown v))
    | _ => Ok (py "0")
    end.

(** [stats[key] = v] *)
Fixpoint dict_set (stats : list (pystr * pystr)) (key v : pystr)
  : list (pystr * pystr) :=
  match stats with
  | [] => [(key, v)]
  | (k, x) :: rest =>
      if str_eqb key k then (k, v) :: rest
      else (k, x) :: dict_set rest key v
  end.

(** [stats[key]] *)
Definition dict_get (stats : list (pystr * pystr)) (key : pystr)
  : Result pystr :=
  match find (fun kv => str_eqb key (fst kv)) stats with
  | Some kv => Ok (snd kv)
  | None => Exn (py "'" ++ key ++ py "'")
  end.

Definition panel_cursor (panel : Panel) : PM unit :=
  (plog (Shared DbCursor) ;;
   match open_cursor panel with
   | Some (e, alive) => shared (db_failure e alive)
   | None => pret tt
   end)%panel.

Definition panel_execute (panel : Panel) (query : pystr) : PM unit :=
  (plog (Shared (DbExecute query)) ;;
   match fetch_one panel query with
   | Broken false e alive => shared (db_failure e alive)
   | _ => pret tt
   end)%panel.

Definition panel_fetchone (panel : Panel) (query : pystr)
  : PM (option stat_row) :=
  (plog DbFetchone ;;
   match fetch_one panel query with
   | Fetched row => pret row
   | Broken _ e alive => shared (db_failure e alive)
   end)%panel.

(** The loop over [queries.items()]. *)
Fixpoint collect_stats (panel : Panel) (qs : list (pystr * pystr))
    (stats : list (pystr * pystr)) : PM (list (pystr * pystr)) :=
  match qs with
  | [] => pret stats
  | (key, query) :: rest =>
      (panel_execute panel query ;;
       result <- panel_fetchone panel query ;;
       v <- (fun s => (stat_entry key result, s)) ;;
       collect_stats panel rest (dict_set stats key v))%panel
  end.

(** [st.metric(label, stats[key])] *)
Definition show_metric (stats : list (pystr * pystr)) (label key : pystr)
  : PM unit :=
  (v <- (fun s => (dict_get stats key, s)) ;;
   plog (StMetric label v))%panel.

(** Lines 212-245. *)
Definition main_quick_stats (panel : Panel) : PM unit :=
  ptry
    (have_conn <- shared (get_db_connection (panel_env panel)) ;;
     if have_conn then
       panel_cursor panel ;;
       stats <- collect_stats panel queries [] ;;
       shared cursor_close ;;
       shared conn_close ;;
       show_metric stats (py "Total Products") (py "Total Products") ;;
       show_metric stats (py "Brands Available") (py "Brands Available") ;;
       show_metric stats (py "Low Stock Items (< 10 units)")
         (py "Low Stock Items") ;;
       show_metric stats (py "Active Discounts") (py "Active Discounts") ;;
       show_metric stats (py "Average Price") (py "Average Price")
     else
       plog (Shared (StError
                       (py "Database connection failed. Cannot load stats."))))%panel
    (fun e => plog (Shared (StError (py "Error loading stats: " ++ e)))).

(** The screen [s] after further events, with its connection in state [l]. *)
Definition screen_after (s : Screen) (evs : list panel_event) (l : link)
  : Screen :=
  {| shown := shown s ++ evs; wire := l |}.

Definition is_metric (ev : panel_event) : bool :=
  match ev with StMetric _ _ => true | _ => false end.

Definition is_panel_close (ev : panel_event) : bool :=
  match ev with Shared ConnClose => true | _ => false end.

(** The two calls the panel makes for a query. *)
Definition query_calls (kq : pystr * pystr) : list panel_event :=
  [Shared (DbExecute (snd kq)); DbFetchone].

(** The value the panel stores for a query, when it gets that far. *)
Definition entry_of (panel : Panel) (kq : pystr * pystr) : Result pystr :=
  match fetch_one panel (snd kq) with
  | Fetched row => stat_entry (fst kq) row
  | Broken _ e _ => Exn e
  end.

(** The labels of the five metrics, in the order they are shown. *)
Definition metric_labels : list pystr :=
  [ py "Total Products"; py "Brands Available";
    py "Low Stock Items (< 10 units)"; py "Active Discounts";
    py "Average Price" ].

Definition metrics (values : list pystr) : list panel_event :=
  map (fun lv => StMetric (fst lv) (snd lv)) (combine metric_labels values).

(** [stats[k] = v] for a pair. *)
Definition set_pair (stats : list (pystr * pystr)) (kv : pystr * pystr)
  : list (pystr * pystr) :=
  dict_set stats (fst kv) (snd kv).

(** Some call of the panel on the database can fail and lose the
    connection. *)
Definition drops (panel : Panel) : Prop :=
  (exists e, open_cursor panel = Some (e, false)) \/
  (exists q at_fetchone e, fetch_one panel q = Broken at_fetchone e false).

(** A statistics row with a single value. *)
Definition one_stat (column shown_as : pystr) (fixed2 : pystr) : stat_row :=
  [ (column, {| stat_shown := shown_as; stat_truthy := true;
                stat_fixed2 := Ok fixed2 |}) ].

(** A panel whose database answers every query: 12 for the counts and
    19.50 for the average. *)
Definition sample_panel : Panel :=
  {| panel_env := sample_env [] (Exn (py "quota"));
     open_cursor := None;
     fetch_one := fun q =>
       if contains (py "AVG") q
       then Fetched (Some (one_stat (py "avg_price") (py "19.500000") (py "19.50")))
       else Fetched (Some (one_stat (py "total") (py "12") (py "12.00"))) |}.

(** A panel whose database rejects every query, keeping the connection. *)
Definition broken_panel : Panel :=
  {| panel_env := sample_env [] (Exn (py "quota"));
     open_cursor := None;
     fetch_one := fun _ =>
       Broken false (py "Table 'inventory' doesn't exist") true |}.

(** A panel whose database cannot be reached. *)
Definition unreachable_panel : Panel :=
  {| panel_env := unreachable_env (py "Can't connect to MySQL server");
     open_cursor := None;
     fetch_one := fun _ => Fetched None |}.

Definition blank_screen : Screen := {| shown := []; wire := Unopened |}.

(* ================================================================== *)
(** * Properties of text *)

Lemma startswith_app p s t :
  startswith p s = true -> startswith p (s ++ t) = true.
Proof.
  revert s; induction p as [|x p IH]; intros [|y s]; simpl; auto.
  - discriminate.
  - intros H. apply andb_true_iff in H as [-> H]. simpl. now apply IH.
Qed.

Lemma startswith_prefix p q s :
  startswith (p ++ q) s = true -> startswith p s = true.
Proof.
  revert s; induction p as [|x p IH]; intros [|y s]; simpl; auto.
  intros H. apply andb_true_iff in H as [-> H]. simpl. now apply IH.
Qed.

Lemma contains_cons p c s :
  contains p (c :: s) = startswith p (c :: s) || contains p s.
Proof. reflexivity. Qed.

(** [contains] is Python's substring test. *)
Lemma startswith_spec p s :
  startswith p s = true <-> exists b, s = p ++ b.
Proof.
  revert s; induction p as [|x p IH]; intros s; simpl.
  - split; eauto.
  - destruct s as [|y s].
    + split; [discriminate | intros [b H]; discriminate].
    + rewrite andb_true_iff, N.eqb_eq, IH. split.
      * intros [-> [b ->]]. now exists b.
      * intros [b H]. injection H as -> ->. eauto.
Qed.

Lemma contains_spec p s :
  contains p s = true <-> exists a b, s = a ++ p ++ b.
Proof.
  induction s as [|c s IH].
  - simpl. rewrite orb_false_r, startswith_spec. split.
    + intros [b H]. now exists [], b.
    + intros [a [b H]]. destruct a; [now exists b|discriminate].
  - rewrite contains_cons, orb_true_iff, startswith_spec, IH. split.
    + intros [[b H] | [a [b H]]].
      * now exists [], b.
      * exists (c :: a), b. now rewrite H.
    + intros [[|x a] [b H]].
      * left. now exists b.
      * right. injection H as -> ->. eauto.
Qed.

Lemma contains_false_suffix p a s :
  contains p (a ++ s) = false -> contains p s = false.
Proof.
  induction a as [|x a IH]; simpl; auto.
  intros H. apply orb_false_iff in H as [_ H]. auto.
Qed.

Lemma contains_false_prefix p s b :
  contains p (s ++ b) = false -> contains p s = false.
Proof.
  intros H. destruct (contains p s) eqn:E; auto.
  apply contains_spec in E as [a [c ->]].
  assert (contains p ((a ++ p ++ c) ++ b) = true) as K.
  { apply contains_spec. exists a, (c ++ b). now rewrite <- !app_assoc. }
  congruence.
Qed.

Lemma contains_longer p q s :
  contains p s = false -> contains (p ++ q) s = false.
Proof.
  intros H. destruct (contains (p ++ q) s) eqn:E; auto.
  apply contains_spec in E as [a [b ->]].
  assert (contains p (a ++ (p ++ q) ++ b) = true) as K.
  { apply contains_spec. exists a, (q ++ b). now rewrite <- !app_assoc. }
  congruence.
Qed.

(** ** Stripping *)

Lemma lstrip_suffix s : exists a, s = a ++ lstrip s.
Proof.
  induction s as [|c s [a IH]]; simpl.
  - now exists [].
  - destruct (is_space c).
    + exists (c :: a). simpl. now f_equal.
    + now exists [].
Qed.

Lemma lstrip_leading s : leading_space (lstrip s) = false.
Proof.
  induction s as [|c s IH]; simpl; auto.
  destruct (is_space c) eqn:E; simpl; auto.
Qed.

Lemma rstrip_prefix s : exists b, s = rstrip s ++ b.
Proof.
  unfold rstrip. destruct (lstrip_suffix (rev s)) as [a H].
  exists (rev a). rewrite <- rev_app_distr, <- H. now rewrite rev_involutive.
Qed.

Lemma rstrip_trailing s : trailing_space (rstrip s) = false.
Proof.
  unfold trailing_space, rstrip. rewrite rev_involutive. apply lstrip_leading.
Qed.

Lemma rstrip_keeps_leading s :
  leading_space s = false -> leading_space (rstrip s) = false.
Proof.
  intros H. destruct (rstrip_prefix s) as [b E].
  destruct (rstrip s) as [|c r]; auto.
  rewrite E in H. exact H.
Qed.

Lemma strip_leading s : leading_space (strip s) = false.
Proof. apply rstrip_keeps_leading, lstrip_leading. Qed.

Lemma strip_trailing s : trailing_space (strip s) = false.
Proof. apply rstrip_trailing. Qed.

Lemma strip_infix s : exists a b, s = a ++ strip s ++ b.
Proof.
  unfold strip. destruct (lstrip_suffix s) as [a Ha].
  destruct (rstrip_prefix (lstrip s)) as [b Hb].
  exists a, b. now rewrite <- Hb.
Qed.

Lemma strip_keeps_absent p s :
  contains p s = false -> contains p (strip s) = false.
Proof.
  intros H. destruct (strip_infix s) as [a [b E]]. rewrite E in H.
  apply contains_false_suffix in H. now apply contains_false_prefix in H.
Qed.

Lemma strip_nil_of_spaces s :
  forallb is_space s = true -> strip s = [].
Proof.
  intros H. unfold strip.
  assert (lstrip s = []) as ->.
  { induction s as [|c s IH]; simpl in *; auto.
    apply andb_true_iff in H as [-> H]. auto. }
  reflexivity.
Qed.

(** ** Removing code fences *)

Lemma fence_bare_eq :
  fence_bare = [Lit BACKTICK; Lit BACKTICK; Lit BACKTICK; Opt LF].
Proof. reflexivity. Qed.

Lemma startswith_false_longer p q s :
  startswith p s = false -> startswith (p ++ q) s = false.
Proof.
  intros H. destruct (startswith (p ++ q) s) eqn:E; auto.
  apply startswith_prefix in E. congruence.
Qed.

(** Where no fence starts, the scan copies one character. *)
Lemma unfence_copy c t :
  startswith ticks3 (c :: t) = false ->
  re_sub fence_bare [] (c :: t) = c :: re_sub fence_bare [] t.
Proof.
  unfold re_sub. rewrite fence_bare_eq. intros H.
  cbn [re_sub_from match_here].
  destruct (N.eqb_spec c BACKTICK) as [->|]; auto.
  destruct t as [|b t]; auto.
  destruct (N.eqb_spec b BACKTICK) as [->|]; auto.
  destruct t as [|a t]; auto.
  destruct (N.eqb_spec a BACKTICK) as [->|]; auto.
  discriminate H.
Qed.

(** A fence is dropped, with the line feed that follows it if any. *)
Lemma unfence_drop t :
  re_sub fence_bare [] (BACKTICK :: BACKTICK :: BACKTICK :: t) =
  match t with
  | x :: t' => if x =? LF then re_sub fence_bare [] t'
               else re_sub fence_bare [] t
  | [] => []
  end.
Proof.
  unfold re_sub. rewrite fence_bare_eq.
  destruct t as [|x t]; [reflexivity|].
  cbn [re_sub_from match_here N.eqb BACKTICK Pos.eqb].
  destruct (N.eqb_spec x LF) as [->|]; reflexivity.
Qed.

Lemma unfence_no_double s :
  startswith [BACKTICK; BACKTICK] s = false ->
  startswith [BACKTICK; BACKTICK] (re_sub fence_bare [] s) = false.
Proof.
  intros H. destruct s as [|a s]; [reflexivity|].
  rewrite unfence_copy
    by now apply (startswith_false_longer [BACKTICK; BACKTICK] [BACKTICK]).
  cbn [startswith] in *.
  destruct (BACKTICK =? a); [|reflexivity].
  destruct s as [|b s]; [reflexivity|].
  rewrite andb_true_l in *.
  assert (startswith ticks3 (b :: s) = false) as K.
  { unfold ticks3. cbn [startswith]. apply andb_false_iff.
    apply andb_false_iff in H as [H|H]; auto. discriminate. }
  rewrite (unfence_copy _ _ K). cbn [startswith]. exact H.
Qed.

Lemma unfence_length_bound n s :
  (List.length s <= n)%nat ->
  contains ticks3 (re_sub fence_bare [] s) = false.
Proof.
  revert s; induction n as [|n IH]; intros s Hn.
  - destruct s; [reflexivity | simpl in Hn; lia].
  - destruct s as [|a s]; [reflexivity|].
    destruct (startswith ticks3 (a :: s)) eqn:E.
    + apply startswith_spec in E as [t E]. simpl in E. rewrite E.
      rewrite unfence_drop.
      assert (List.length t <= n)%nat as Ht.
      { rewrite E in Hn. simpl in Hn. lia. }
      destruct t as [|x t]; [reflexivity|].
      destruct (x =? LF); apply IH; simpl in *; lia.
    + rewrite unfence_copy by exact E.
      rewrite contains_cons. apply orb_false_iff. split.
      * unfold ticks3 in *. cbn [startswith] in *.
        destruct (BACKTICK =? a); [|reflexivity].
        rewrite andb_true_l in *.
        now apply unfence_no_double.
      * apply IH. simpl in Hn. lia.
Qed.

Lemma unfence_clean s : contains ticks3 (re_sub fence_bare [] s) = false.
Proof. apply (unfence_length_bound (List.length s)). lia. Qed.

Lemma extract_sql_no_fence raw : contains ticks3 (extract_sql raw) = false.
Proof. unfold extract_sql. apply strip_keeps_absent, unfence_clean. Qed.

(** ** Spacing a pair of character classes *)

Lemma is_digit_range c :
  is_digit c = true -> (48 <= c <= 57) \/ 1632 <= c.
Proof.
  unfold is_digit, in_ranges. intros H.
  apply existsb_exists in H as [[lo hi] [Hin Hc]]. simpl in Hc.
  apply andb_true_iff in Hc as [Hlo Hhi].
  apply N.leb_le in Hlo. apply N.leb_le in Hhi.
  assert (forallb (fun r => ((fst r =? 48) && (snd r =? 57)) || (1632 <=? fst r))
            decimal_digit_ranges = true) as T by reflexivity.
  rewrite forallb_forall in T. specialize (T _ Hin). simpl in T.
  apply orb_true_iff in T as [T|T].
  - apply andb_true_iff in T as [T1 T2].
    apply N.eqb_eq in T1. apply N.eqb_eq in T2. lia.
  - apply N.leb_le in T. lia.
Qed.

Lemma digit_not_alpha c : is_digit c = true -> is_alpha c = false.
Proof.
  intros H. apply is_digit_range in H.
  unfold is_alpha, is_lower, is_upper.
  apply orb_false_iff. split; apply andb_false_iff.
  - destruct H as [H|H]; [left; apply N.leb_gt; lia | right; apply N.leb_gt; lia].
  - destruct H as [H|H]; [left; apply N.leb_gt; lia | right; apply N.leb_gt; lia].
Qed.

Lemma lower_not_upper c : is_lower c = true -> is_upper c = false.
Proof.
  unfold is_lower, is_upper. intros H.
  apply andb_true_iff in H as [H _]. apply N.leb_le in H.
  apply andb_false_iff. right. apply N.leb_gt. lia.
Qed.

Section Pairs.

Variables P Q : char -> bool.

Lemma has_pair_cons2 x y t :
  has_pair P Q (x :: y :: t) = (P x && Q y) || has_pair P Q (y :: t).
Proof. reflexivity. Qed.

Lemma space_pairs_cons2 x y t :
  space_pairs P Q (x :: y :: t) =
  if P x && Q y then x :: SPACE :: y :: space_pairs P Q t
  else x :: space_pairs P Q (y :: t).
Proof. reflexivity. Qed.

(** The first character is never moved. *)
Lemma space_pairs_head y t :
  exists t', space_pairs P Q (y :: t) = y :: t'.
Proof.
  destruct t as [|z t]; [now exists []|].
  rewrite space_pairs_cons2. destruct (P y && Q z); eauto.
Qed.

Lemma has_pair_head (P' Q' : char -> bool) x y t :
  has_pair P' Q' (x :: space_pairs P Q (y :: t)) =
  (P' x && Q' y) || has_pair P' Q' (space_pairs P Q (y :: t)).
Proof.
  destruct (space_pairs_head y t) as [t' ->]. reflexivity.
Qed.

Lemma has_pair_spaced (P' Q' : char -> bool) x y r :
  has_pair P' Q' (x :: SPACE :: y :: r) =
  (P' x && Q' SPACE) || ((P' SPACE && Q' y) || has_pair P' Q' (y :: r)).
Proof. reflexivity. Qed.

(** A string without a pair is left as it is. *)
Lemma space_pairs_fixed s :
  has_pair P Q s = false -> space_pairs P Q s = s.
Proof.
  induction s as [|x s IH]; [reflexivity|].
  destruct s as [|y t]; [reflexivity|].
  rewrite has_pair_cons2, space_pairs_cons2. intros H.
  apply orb_false_iff in H as [-> H]. f_equal. auto.
Qed.

(** Spacing the pairs of [P], [Q] creates no pair of other classes that
    do not hold of the space. *)
Lemma space_pairs_keeps_absent (P' Q' : char -> bool) n s :
  P' SPACE = false -> Q' SPACE = false ->
  (List.length s <= n)%nat ->
  has_pair P' Q' s = false ->
  has_pair P' Q' (space_pairs P Q s) = false.
Proof.
  intros HP HQ. revert s. induction n as [|n IH]; intros s Hn H.
  - destruct s; [reflexivity | simpl in Hn; lia].
  - destruct s as [|x [|y t]]; try reflexivity.
    change (has_pair P' Q' (x :: y :: t))
      with ((P' x && Q' y) || has_pair P' Q' (y :: t)) in H.
    apply orb_false_iff in H as [Hxy H].
    rewrite space_pairs_cons2. destruct (P x && Q y).
    + rewrite has_pair_spaced, HQ, HP, andb_false_r, andb_false_l.
      rewrite !orb_false_l.
      destruct t as [|z t]; [reflexivity|].
      change (has_pair P' Q' (y :: z :: t))
        with ((P' y && Q' z) || has_pair P' Q' (z :: t)) in H.
      apply orb_false_iff in H as [Hyz H].
      rewrite has_pair_head, Hyz, orb_false_l.
      apply IH; [simpl in *; lia | exact H].
    + rewrite has_pair_head, Hxy, orb_false_l.
      apply IH; [simpl in *; lia | exact H].
Qed.

Hypothesis P_space : P SPACE = false.
Hypothesis Q_space : Q SPACE = false.
Hypothesis disjoint : forall c, Q c = true -> P c = false.

(** After the substitution no pair is left. *)
Lemma space_pairs_bounded n s :
  (List.length s <= n)%nat -> has_pair P Q (space_pairs P Q s) = false.
Proof.
  revert s. induction n as [|n IH]; intros s Hn.
  - destruct s; [reflexivity | simpl in Hn; lia].
  - destruct s as [|x [|y t]]; try reflexivity.
    rewrite space_pairs_cons2. destruct (P x && Q y) eqn:E.
    + apply andb_true_iff in E as [Ex Ey].
      rewrite has_pair_spaced, Q_space, P_space, andb_false_r, andb_false_l.
      rewrite !orb_false_l.
      destruct t as [|z t]; [reflexivity|].
      rewrite has_pair_head, (disjoint _ Ey), andb_false_l, orb_false_l.
      apply IH. simpl in *. lia.
    + rewrite has_pair_head, E, orb_false_l. apply IH. simpl in *. lia.
Qed.

Lemma space_pairs_clean s : has_pair P Q (space_pairs P Q s) = false.
Proof. apply (space_pairs_bounded (List.length s)). lia. Qed.

End Pairs.

Lemma re_sub_from_scan r tpl c t :
  re_sub_from r tpl 0 (c :: t) =
  match match_here r (c :: t) with
  | Some (S n, g) => expand tpl g ++ re_sub_from r tpl n t
  | Some (O, g) => expand tpl g ++ c :: re_sub_from r tpl 0 t
  | None => c :: re_sub_from r tpl 0 t
  end.
Proof. reflexivity. Qed.

Lemma re_sub_from_skip r tpl k c t :
  re_sub_from r tpl (S k) (c :: t) = re_sub_from r tpl k t.
Proof. reflexivity. Qed.

Lemma match_pair P Q x y t :
  match_here [Grp P; Grp Q] (x :: y :: t) =
  if P x && Q y then Some (2%nat, [x; y]) else None.
Proof. simpl. destruct (P x), (Q y); reflexivity. Qed.

Lemma match_period_capital x y t :
  match_here period_capital (x :: y :: t) =
  if (x =? DOT) && is_upper y then Some (2%nat, [y]) else None.
Proof.
  unfold period_capital. simpl. destruct (x =? DOT), (is_upper y); reflexivity.
Qed.

(** The three substitutions of [clean_response_text] are spacings of
    pairs. *)
Lemma re_sub_pair P Q n s :
  (List.length s <= n)%nat ->
  re_sub [Grp P; Grp Q] spaced_pair s = space_pairs P Q s.
Proof.
  unfold re_sub. revert s. induction n as [|n IH]; intros s Hn.
  - destruct s; [reflexivity | simpl in Hn; lia].
  - destruct s as [|x [|y t]].
    + reflexivity.
    + cbn. destruct (P x); reflexivity.
    + rewrite space_pairs_cons2, re_sub_from_scan, match_pair.
      destruct (P x && Q y).
      * rewrite re_sub_from_skip.
        change (expand spaced_pair [x; y]) with [x; SPACE; y].
        cbn [app]. do 3 f_equal. apply IH. simpl in *. lia.
      * f_equal. apply IH. simpl in *. lia.
Qed.

Lemma re_sub_period_capital n s :
  (List.length s <= n)%nat ->
  re_sub period_capital period_capital_repl s =
  space_pairs (fun c => c =? DOT) is_upper s.
Proof.
  unfold re_sub. revert s. induction n as [|n IH]; intros s Hn.
  - destruct s; [reflexivity | simpl in Hn; lia].
  - destruct s as [|x [|y t]].
    + reflexivity.
    + cbn. destruct (x =? DOT); reflexivity.
    + rewrite space_pairs_cons2, re_sub_from_scan, match_period_capital.
      destruct (N.eqb_spec x DOT) as [->|]; cbn [andb].
      * destruct (is_upper y).
        -- rewrite re_sub_from_skip.
           change (expand period_capital_repl [y]) with [DOT; SPACE; y].
           cbn [app]. do 3 f_equal. apply IH. simpl in *. lia.
        -- f_equal. apply IH. simpl in *. lia.
      * f_equal. apply IH. simpl in *. lia.
Qed.

Lemma clean_text_spaced s :
  clean_text s =
  space_pairs is_digit is_alpha
    (space_pairs is_lower is_upper
       (space_pairs (fun c => c =? DOT) is_upper s)).
Proof.
  unfold clean_text, lower_upper, digit_letter.
  rewrite (re_sub_period_capital (List.length s)) by lia.
  rewrite (re_sub_pair _ _ _ _ (le_n _)).
  rewrite (re_sub_pair _ _ _ _ (le_n _)).
  reflexivity.
Qed.

Lemma clean_text_idempotent s : clean_text (clean_text s) = clean_text s.
Proof.
  rewrite !clean_text_spaced.
  set (a := space_pairs (fun c => c =? DOT) is_upper s).
  set (b := space_pairs is_lower is_upper a).
  set (c := space_pairs is_digit is_alpha b).
  assert (has_pair (fun c => c =? DOT) is_upper c = false) as H1.
  { apply (space_pairs_keeps_absent _ _ _ _ (List.length b)); auto.
    apply (space_pairs_keeps_absent _ _ _ _ (List.length a)); auto.
    apply space_pairs_clean; auto.
    intros x Hx. cbv beta.
    destruct (N.eqb_spec x DOT) as [->|]; [discriminate Hx | reflexivity]. }
  assert (has_pair is_lower is_upper c = false) as H2.
  { apply (space_pairs_keeps_absent _ _ _ _ (List.length b)); auto.
    apply space_pairs_clean; auto.
    intros x Hx. destruct (is_lower x) eqn:E; auto.
    apply lower_not_upper in E. congruence. }
  assert (has_pair is_digit is_alpha c = false) as H3.
  { apply space_pairs_clean; auto.
    intros x Hx. destruct (is_digit x) eqn:E; auto.
    apply digit_not_alpha in E. congruence. }
  rewrite (space_pairs_fixed _ _ c H1).
  rewrite (space_pairs_fixed _ _ c H2).
  now rewrite (space_pairs_fixed _ _ c H3).
Qed.

(* ================================================================== *)
(** * Properties of the fallback formatter *)

Lemma str_eqb_eq a b : str_eqb a b = true <-> a = b.
Proof.
  revert b; induction a as [|x a IH]; intros [|y b]; simpl;
    try (split; [discriminate | intros H; discriminate H]);
    try (split; reflexivity).
  rewrite andb_true_iff, N.eqb_eq, IH. split.
  - now intros [-> ->].
  - intros H. injection H as -> ->. auto.
Qed.

Lemma lookup_In k d v : lookup k d = Some v -> In (k, v) d.
Proof.
  induction d as [|[k' v'] d IH]; simpl; [discriminate|].
  destruct (str_eqb k k') eqn:E.
  - apply str_eqb_eq in E. intros H. injection H as ->. left. now subst.
  - auto.
Qed.

Lemma has_key_lookup k d :
  has_key k d = true -> exists v, lookup k d = Some v.
Proof.
  unfold has_key. induction d as [|[k' v'] d IH]; simpl; [discriminate|].
  destruct (str_eqb k k'); simpl; eauto.
Qed.

Lemma detail_ok row label k suffix :
  exists d, detail row label k suffix = Ok d.
Proof.
  unfold detail, getitem. destruct (has_key k row) eqn:E; eauto.
  apply has_key_lookup in E as [v ->]. simpl. eauto.
Qed.

Lemma labelled_row_ok row :
  (forall v, lookup (py "price_per_item") row = Some v ->
             exists x, cell_float v = Ok x) ->
  exists t, labelled_row row = Ok t.
Proof.
  intros H. unfold labelled_row.
  destruct (detail_ok row (py "Size: ") (py "size") []) as [d1 ->].
  destruct (detail_ok row (py "Color: ") (py "color") []) as [d2 ->].
  destruct (detail_ok row (py "Stock: ") (py "stock_quantity") (py " units"))
    as [d4 E4].
  cbn [bind_result].
  assert (exists d3, price_detail row = Ok d3) as [d3 ->].
  { unfold price_detail, getitem.
    destruct (has_key (py "price_per_item") row) eqn:E; eauto.
    apply has_key_lookup in E as [v E]. rewrite E. cbn [bind_result].
    destruct (H v E) as [x ->]. cbn [bind_result]. eauto. }
  cbn [bind_result]. rewrite E4. cbn [bind_result]. eauto.
Qed.


(** The loop only ever appends. *)
Lemma render_rows_extends rows : forall acc t,
  render_rows acc rows = Ok t -> exists u, t = acc ++ u.
Proof.
  induction rows as [|row rows IH]; simpl; intros acc t H.
  - injection H as <-. exists []. now rewrite app_nil_r.
  - destruct (render_row row) as [x|e]; simpl in H; [|discriminate].
    apply IH in H as [u ->]. exists (x ++ u). now rewrite app_assoc.
Qed.

Lemma render_rows_ok rows :
  (forall row, In row rows -> exists t, render_row row = Ok t) ->
  forall acc, exists t, render_rows acc rows = Ok t.
Proof.
  induction rows as [|row rows IH]; simpl; intros H acc; eauto.
  destruct (H row (or_introl eq_refl)) as [x ->]. simpl.
  apply IH. auto.
Qed.

(** Every row that can be rendered is in the text, in order, after the
    accumulated header. *)
Lemma render_rows_all (f : Series -> pystr) rows :
  (forall row, In row rows -> render_row row = Ok (f row)) ->
  forall acc, render_rows acc rows = Ok (acc ++ List.concat (map f rows)).
Proof.
  induction rows as [|row rows IH]; simpl; intros H acc.
  - now rewrite app_nil_r.
  - rewrite (H row (or_introl eq_refl)). simpl.
    rewrite IH by auto. now rewrite app_assoc.
Qed.



(** Rows without a brand or without a product name are all rendered in
    the generic shape, whatever their cells are. *)
Lemma format_generic_rows df :
  df_empty df = false ->
  (forall row, In row (iterrows df) ->
     has_key (py "brand") row && has_key (py "product_name") row = false) ->
  format_dataframe_simple df =
  Ok ((py "Found " ++ dec (df_len df) ++ py " results:" ++ [LF; LF])
      ++ List.concat (map generic_row (iterrows df))).
Proof.
  intros He H. unfold format_dataframe_simple. rewrite He.
  apply render_rows_all. intros row Hin. unfold render_row.
  now rewrite (H row Hin).
Qed.

(* ================================================================== *)
(** * Properties of the pipeline stages *)

Arguments translation_prompt : simpl never.
Arguments response_prompt : simpl never.
Arguments extract_sql : simpl never.
Arguments clean_response_text : simpl never.
Arguments format_dataframe_simple : simpl never.
Arguments pd_DataFrame : simpl never.

Lemma after_after w evs l evs' l' :
  after (after w evs l) evs' l' = after w (evs ++ evs') l'.
Proof. unfold after. simpl. now rewrite app_assoc. Qed.

Lemma after_nil w : after w [] (conn w) = w.
Proof. unfold after. rewrite app_nil_r. now destruct w. Qed.

Lemma log_after ev w : log ev w = (Ok tt, after w [ev] (conn w)).
Proof. reflexivity. Qed.

Lemma bind_eq {A B} (m : M A) (k : A -> M B) w :
  bind m k w = match m w with
               | (Ok a, w') => k a w'
               | (Exn e, w') => (Exn e, w')
               end.
Proof. reflexivity. Qed.

(** ** The translator *)

Lemma translation_succeeds env question raw w :
  generate_content env (translation_prompt env question) = Ok raw ->
  natural_language_to_sql env question w =
  (Ok (extract_sql raw),
   after w [ModelCall (translation_prompt env question)] (conn w)).
Proof.
  intros H. unfold natural_language_to_sql, try_except, model_generate, lift.
  rewrite !bind_eq, log_after, H. reflexivity.
Qed.

Lemma translation_fails env question cause w :
  generate_content env (translation_prompt env question) = Exn cause ->
  natural_language_to_sql env question w =
  (Ok (py "Error generating SQL: " ++ cause),
   after w [ModelCall (translation_prompt env question)] (conn w)).
Proof.
  intros H. unfold natural_language_to_sql, try_except, model_generate, lift.
  rewrite !bind_eq, log_after, H. reflexivity.
Qed.

(** ** The executor *)

Lemma execute_query_refused env sql e w :
  connect env = Refused e ->
  execute_query env sql w =
  (Ok (None, Some (py "Database connection failed")),
   after w [DbConnect; StError (py "Database connection failed: " ++ e)]
     (conn w)).
Proof.
  intros H. unfold execute_query, get_db_connection.
  rewrite !bind_eq, log_after, H, bind_eq, log_after.
  unfold ret. cbn [negb]. now rewrite after_after.
Qed.

Lemma execute_query_escapes env sql e w :
  connect env = Escapes e ->
  execute_query env sql w = (Exn e, after w [DbConnect] (conn w)).
Proof.
  intros H. unfold execute_query, get_db_connection.
  rewrite !bind_eq, log_after, H. reflexivity.
Qed.

Lemma execute_query_rows env sql results w :
  connect env = Acquired ->
  run_sql env sql = Rows results ->
  execute_query env sql w =
  (Ok (Some results, None),
   after w [DbConnect; DbCursor; DbExecute sql; DbFetchall;
            CursorClose; ConnClose] Closed).
Proof.
  intros Hc Hr. unfold execute_query, get_db_connection.
  rewrite !bind_eq, log_after, Hc, Hr.
  unfold after. cbn. rewrite <- !app_assoc. reflexivity.
Qed.

Lemma execute_query_fails env sql st e alive w :
  connect env = Acquired ->
  run_sql env sql = Fails st e alive ->
  execute_query env sql w =
  (Ok (None, Some e),
   after w (DbConnect :: calls_until st sql ++
            ConnPing :: (if alive then [ConnClose] else []))
     (if alive then Closed else Dropped)).
Proof.
  intros Hc Hr. unfold execute_query, get_db_connection.
  rewrite !bind_eq, log_after, Hc, Hr.
  unfold after. destruct st, alive; cbn; rewrite <- !app_assoc; reflexivity.
Qed.

(** ** The formatter *)

Lemma format_response_error env question results e w :
  e <> [] ->
  format_response env question results (Some e) w =
  (Ok (py "I apologize, but I encountered an error processing your question: "
       ++ e), w).
Proof.
  intros H. unfold format_response. destruct e; [congruence|]. reflexivity.
Qed.

Lemma format_response_nothing env question results error w :
  truthy error = false -> truthy results = false ->
  format_response env question results error w =
  (Ok (py "I couldn't find any matching results for your question."), w).
Proof.
  intros He Hr. unfold format_response. rewrite He, Hr. reflexivity.
Qed.

Lemma format_response_narrated env question r rs raw w :
  let df := pd_DataFrame (frame_rows env (r :: rs)) in
  generate_content env (response_prompt env question df) = Ok raw ->
  format_response env question (Some (r :: rs)) None w =
  (Ok (clean_text (strip raw)),
   after w [ModelCall (response_prompt env question df)] (conn w)).
Proof.
  intros df H. unfold format_response, try_except, model_generate, lift.
  cbn [truthy negb]. rewrite !bind_eq, log_after. fold df. rewrite H.
  reflexivity.
Qed.


(** ** The orchestrator *)

Lemma answer_text_app a b :
  answer_text (a ++ b) =
  match answer_text b with
  | Some t => Some t
  | None => answer_text a
  end.
Proof.
  induction a as [|ev a IH]; simpl.
  - now destruct (answer_text b).
  - rewrite IH. now destruct (answer_text b).
Qed.


(** A translation that begins with "Error" ends the request. *)
Lemma main_short_circuit env question sql w w1 :
  question <> [] ->
  natural_language_to_sql env question w = (Ok sql, w1) ->
  startswith (py "Error") sql = true ->
  main_get_answer env question w = (Ok tt, after w1 [StError sql] (conn w1)).
Proof.
  intros Hq Ht He. unfold main_get_answer.
  destruct question as [|c q]; [congruence|].
  rewrite bind_eq, Ht, He. apply log_after.
Qed.

(** Any other translation is executed, formatted and shown. *)
Lemma main_proceeds env question sql results error response w w1 w2 w3 :
  question <> [] ->
  natural_language_to_sql env question w = (Ok sql, w1) ->
  startswith (py "Error") sql = false ->
  execute_query env sql w1 = (Ok (results, error), w2) ->
  format_response env question results error w2 = (Ok response, w3) ->
  main_get_answer env question w =
  (Ok tt,
   after w3 ([StSubheader (py "Answer:"); StSuccess response;
              StMarkdown (py "**Generated SQL Query:**"); StCode sql] ++
             match results with
             | Some (r :: rs) =>
                 [StMarkdown (py "**Raw Query Results:**");
                  StDataframe (pd_DataFrame (frame_rows env (r :: rs)))]
             | _ => []
             end) (conn w3)).
Proof.
  intros Hq Ht He Hx Hf. unfold main_get_answer.
  destruct question as [|c q]; [congruence|].
  rewrite bind_eq, Ht, He, bind_eq, Hx. cbn [fst snd].
  rewrite bind_eq, Hf. unfold bind, log, ret, after.
  destruct results as [[|r rs]|]; cbn [truthy trace conn];
    rewrite <- ?app_assoc; reflexivity.
Qed.

(** A formatter that raises is not caught by [main]. *)
Lemma main_propagates env question sql results error e w w1 w2 w3 :
  question <> [] ->
  natural_language_to_sql env question w = (Ok sql, w1) ->
  startswith (py "Error") sql = false ->
  execute_query env sql w1 = (Ok (results, error), w2) ->
  format_response env question results error w2 = (Exn e, w3) ->
  main_get_answer env question w = (Exn e, w3).
Proof.
  intros Hq Ht He Hx Hf. unfold main_get_answer.
  destruct question as [|c q]; [congruence|].
  rewrite bind_eq, Ht, He, bind_eq, Hx. cbn [fst snd].
  now rewrite bind_eq, Hf.
Qed.

(** Nor is an executor that raises. *)
Lemma main_propagates_executor env question sql e w w1 w2 :
  question <> [] ->
  natural_language_to_sql env question w = (Ok sql, w1) ->
  startswith (py "Error") sql = false ->
  execute_query env sql w1 = (Exn e, w2) ->
  main_get_answer env question w = (Exn e, w2).
Proof.
  intros Hq Ht He Hx. unfold main_get_answer.
  destruct question as [|c q]; [congruence|].
  now rewrite bind_eq, Ht, He, bind_eq, Hx.
Qed.




(* ================================================================== *)
(** * The properties of the design document *)








(** C3: when the translation call raises, the translator returns
    "Error generating SQL: " followed by the cause; the request then shows
    that string as an error and makes no database call at all; and the
    same holds of every translation that carries this prefix. *)
Theorem translation_failure_short_circuits env question cause w :
  question <> [] ->
  generate_content env (translation_prompt env question) = Exn cause ->
  let prompt := translation_prompt env question in
  let msg := py "Error generating SQL: " ++ cause in
  natural_language_to_sql env question w
    = (Ok msg, after w [ModelCall prompt] (conn w)) /\
  main_get_answer env question w
    = (Ok tt, after w [ModelCall prompt; StError msg] (conn w)) /\
  (forall env' sql w0 w1,
     natural_language_to_sql env' question w0 = (Ok sql, w1) ->
     startswith (py "Error generating SQL: ") sql = true ->
     main_get_answer env' question w0
       = (Ok tt, after w1 [StError sql] (conn w1))).
Proof.
  intros Hq Hg prompt msg.
  pose proof (translation_fails env question cause w Hg) as Ht.
  split; [exact Ht|]. split.
  - rewrite (main_short_circuit _ _ _ _ _ Hq Ht eq_refl).
    now rewrite after_after.
  - intros env' sql w0 w1 Ht' Hp.
    apply (main_short_circuit _ _ _ _ _ Hq Ht').
    apply (startswith_prefix (py "Error") (py " generating SQL: ")).
    exact Hp.
Qed.

Lemma translation_failure_short_circuits_witness :
  sample_question <> [] /\
  generate_content (constant_env (Exn (py "503 Service Unavailable")))
    (translation_prompt (constant_env (Exn (py "503 Service Unavailable")))
       sample_question)
  = Exn (py "503 Service Unavailable") /\
  main_get_answer (constant_env (Exn (py "503 Service Unavailable")))
    sample_question fresh
  = (Ok tt,
     after fresh
       [ModelCall
          (translation_prompt
             (constant_env (Exn (py "503 Service Unavailable")))
             sample_question);
        StError (py "Error generating SQL: 503 Service Unavailable")]
       (conn fresh)).
Proof.
  assert (sample_question <> []) as Hq by (vm_compute; discriminate).
  split; [exact Hq|]. split; [reflexivity|].
  exact (proj1 (proj2 (translation_failure_short_circuits
                         (constant_env (Exn (py "503 Service Unavailable")))
                         sample_question (py "503 Service Unavailable")
                         fresh Hq eq_refl))).
Defined.

(** C4: whatever the model writes, the statement extracted from it holds
    no code fence, tagged or bare, and neither begins nor ends with
    whitespace; and the fenced output of the design document extracts to
    exactly its statement. *)
Theorem extracted_sql_is_bare :
  (forall raw,
     contains (py "```") (extract_sql raw) = false /\
     contains (py "```sql") (extract_sql raw) = false /\
     leading_space (extract_sql raw) = false /\
     trailing_space (extract_sql raw) = false) /\
  extract_sql (py "```sql" ++ [LF] ++ py "SELECT * FROM inventory" ++ [LF]
               ++ py "```")
  = py "SELECT * FROM inventory".
Proof.
  split; [|reflexivity].
  intros raw. split; [|split; [|split]].
  - apply extract_sql_no_fence.
  - apply (contains_longer (py "```") (py "sql")), extract_sql_no_fence.
  - apply strip_leading.
  - apply strip_trailing.
Qed.

(** C5: the cleanup pass is idempotent: cleaning an already cleaned text
    changes nothing. *)
Theorem clean_response_text_idempotent (s : pystr) :
  clean_response_text (PyStr (clean_response_text (PyStr s)))
  = clean_response_text (PyStr s).
Proof. apply clean_text_idempotent. Qed.

(** C6: for the single Nike row the fallback formatter returns a text
    that contains "Nike - Tee", "Size: L", "Price: $19.50" and
    "Stock: 3 units"; for an empty result set it returns
    "No results found.", which is not the empty string. *)
Theorem fallback_formatter_examples :
  (exists text,
     format_dataframe_simple (pd_DataFrame [nike_row]) = Ok text /\
     contains (py "Nike - Tee") text = true /\
     contains (py "Size: L") text = true /\
     contains (py "Price: $19.50") text = true /\
     contains (py "Stock: 3 units") text = true) /\
  format_dataframe_simple (pd_DataFrame []) = Ok (py "No results found.") /\
  py "No results found." <> [].
Proof.
  split; [|split].
  - eexists. split; [vm_compute; reflexivity|].
    repeat split; vm_compute; reflexivity.
  - reflexivity.
  - discriminate.
Qed.

(** C7: with no error and an empty result set, [format_response] returns
    the fixed no-matching-results message and leaves the world as it
    was: no call to the language model is made. *)
Theorem empty_result_fixed_message env question w :
  format_response env question (Some []) None w
  = (Ok (py "I couldn't find any matching results for your question."), w).
Proof. reflexivity. Qed.

(** C8: a model output whose extracted text begins with "Error" is
    reported as a translation failure, whatever else it says: the text is
    shown with [st.error] and no database call is made. *)
Theorem error_prefix_reads_as_failure env question raw w :
  question <> [] ->
  generate_content env (translation_prompt env question) = Ok raw ->
  startswith (py "Error") (extract_sql raw) = true ->
  main_get_answer env question w
  = (Ok tt,
     after w [ModelCall (translation_prompt env question);
              StError (extract_sql raw)] (conn w)).
Proof.
  intros Hq Hg He.
  rewrite (main_short_circuit _ _ _ _ _ Hq
             (translation_succeeds env question raw w Hg) He).
  now rewrite after_after.
Qed.

Lemma error_prefix_reads_as_failure_witness :
  sample_question <> [] /\
  generate_content (constant_env (Ok (py "Error_log")))
    (translation_prompt (constant_env (Ok (py "Error_log"))) sample_question)
  = Ok (py "Error_log") /\
  startswith (py "Error") (extract_sql (py "Error_log")) = true /\
  main_get_answer (constant_env (Ok (py "Error_log"))) sample_question fresh
  = (Ok tt,
     after fresh
       [ModelCall
          (translation_prompt (constant_env (Ok (py "Error_log")))
             sample_question);
        StError (extract_sql (py "Error_log"))] (conn fresh)).
Proof.
  assert (sample_question <> []) as Hq by (vm_compute; discriminate).
  split; [exact Hq|]. split; [reflexivity|]. split; [reflexivity|].
  exact (error_prefix_reads_as_failure (constant_env (Ok (py "Error_log")))
           sample_question (py "Error_log") fresh Hq eq_refl eq_refl).
Defined.

(** C9: [clean_response_text] never raises, whatever object it is given.
    For an argument that is not a string it returns the empty string,
    where the three substitutions alone would raise [TypeError]: the
    [isinstance] guard returns before they are reached.  For a string
    each substitution succeeds and the result is a string. *)
Theorem clean_response_text_total (x : pyobj) :
  exists out,
    clean_response_text_run x = Ok out /\
    out = clean_response_text x /\
    ((forall s, x <> PyStr s) ->
     out = [] /\ exists e, substitutions_run x = Exn e).
Proof.
  destruct x as [|z|b|s|b].
  - exists []. repeat split. eexists. reflexivity.
  - exists []. repeat split. eexists. reflexivity.
  - exists []. repeat split. eexists. reflexivity.
  - exists (clean_text s). split; [reflexivity|]. split; [reflexivity|].
    intros H. now destruct (H s).
  - exists []. repeat split. eexists. reflexivity.
Qed.

Lemma clean_response_text_total_witness :
  (forall s, PyNone <> PyStr s) /\
  clean_response_text_run PyNone = Ok [] /\
  substitutions_run PyNone
  = Exn (py "expected string or bytes-like object, got 'NoneType'").
Proof.
  assert (forall s, PyNone <> PyStr s) as H by (intros s; discriminate).
  split; [exact H|].
  destruct (clean_response_text_total PyNone) as [out [Hrun [_ Hnone]]].
  destruct (Hnone H) as [-> _].
  split; [exact Hrun | reflexivity].
Defined.

(** C10 at a product whose price comes back as text with its currency
    sign: the row has a brand and a product name, [float("$19.50")]
    raises [ValueError] while its details are built, and the formatter
    returns no text at all. *)
Theorem fallback_raises_on_text_price :
  format_dataframe_simple (pd_DataFrame [tagged_price_row])
  = Exn (py "could not convert string to float: '$19.50'").
Proof. vm_compute. reflexivity. Qed.

(** The exception then leaves [format_response] and [main]: the request
    ends in a fault and shows no answer. *)
Lemma text_price_faults_request :
  exists w',
    main_get_answer (sample_env [tagged_price_row] (Exn (py "quota")))
      sample_question fresh
    = (Exn (py "could not convert string to float: '$19.50'"), w') /\
    answer_text (trace w') = None.
Proof. eexists. split; vm_compute; reflexivity. Qed.

(* ================================================================== *)
(** * Further properties of the text functions *)

Lemma space_pairs_despace P Q n s :
  (List.length s <= n)%nat ->
  despace (space_pairs P Q s) = despace s.
Proof.
  revert s. induction n as [|n IH]; intros s Hn.
  - destruct s; [reflexivity | simpl in Hn; lia].
  - destruct s as [|x [|y t]]; try reflexivity.
    rewrite space_pairs_cons2. destruct (P x && Q y).
    + unfold despace. cbn [filter]. change (SPACE =? SPACE) with true.
      cbn [negb]. fold (despace (space_pairs P Q t)). fold (despace t).
      rewrite IH by (simpl in *; lia). reflexivity.
    + unfold despace. cbn [filter].
      fold (despace (space_pairs P Q (y :: t))).
      rewrite IH by (simpl in *; lia). reflexivity.
Qed.

Lemma clean_text_no_pairs s :
  has_pair (fun c => c =? DOT) is_upper (clean_text s) = false /\
  has_pair is_lower is_upper (clean_text s) = false /\
  has_pair is_digit is_alpha (clean_text s) = false.
Proof.
  rewrite clean_text_spaced.
  set (a := space_pairs (fun c => c =? DOT) is_upper s).
  set (b := space_pairs is_lower is_upper a).
  split; [|split].
  - apply (space_pairs_keeps_absent _ _ _ _ (List.length b)); auto.
    apply (space_pairs_keeps_absent _ _ _ _ (List.length a)); auto.
    apply space_pairs_clean; auto.
    intros x Hx. cbv beta.
    destruct (N.eqb_spec x DOT) as [->|]; [discriminate Hx | reflexivity].
  - apply (space_pairs_keeps_absent _ _ _ _ (List.length b)); auto.
    apply space_pairs_clean; auto.
    intros x Hx. destruct (is_lower x) eqn:E; auto.
    apply lower_not_upper in E. congruence.
  - apply space_pairs_clean; auto.
    intros x Hx. destruct (is_digit x) eqn:E; auto.
    apply digit_not_alpha in E. congruence.
Qed.

Lemma well_spaced_iff s :
  well_spaced s = true <->
  has_pair (fun c => c =? DOT) is_upper s = false /\
  has_pair is_lower is_upper s = false /\
  has_pair is_digit is_alpha s = false.
Proof.
  unfold well_spaced. rewrite !andb_true_iff, !negb_true_iff. tauto.
Qed.

(** The last character is never moved either. *)
Lemma space_pairs_last P Q n s z :
  (List.length s <= n)%nat ->
  exists t, space_pairs P Q (s ++ [z]) = t ++ [z].
Proof.
  revert s. induction n as [|n IH]; intros s Hn.
  - destruct s; [now exists [] | simpl in Hn; lia].
  - destruct s as [|x [|y t]].
    + now exists [].
    + cbn [app]. rewrite space_pairs_cons2. destruct (P x && Q z).
      * now exists [x; SPACE].
      * now exists [x].
    + cbn [app]. rewrite space_pairs_cons2. destruct (P x && Q y).
      * destruct (IH t) as [t' E]; [simpl in *; lia|].
        rewrite E. now exists (x :: SPACE :: y :: t').
      * destruct (IH (y :: t)) as [t' E]; [simpl in *; lia|].
        cbn [app] in E. rewrite E. now exists (x :: t').
Qed.

Lemma space_pairs_leading P Q s :
  leading_space (space_pairs P Q s) = leading_space s.
Proof.
  destruct s as [|x t]; [reflexivity|].
  destruct (space_pairs_head P Q x t) as [t' ->]. reflexivity.
Qed.

Lemma space_pairs_trailing P Q s :
  trailing_space (space_pairs P Q s) = trailing_space s.
Proof.
  destruct (rev s) as [|z r] eqn:E.
  - apply (f_equal (@rev _)) in E. rewrite rev_involutive in E.
    subst s. reflexivity.
  - apply (f_equal (@rev _)) in E. rewrite rev_involutive in E.
    cbn [rev] in E. subst s.
    destruct (space_pairs_last P Q _ (rev r) z (le_n _)) as [t ->].
    unfold trailing_space. now rewrite !rev_app_distr.
Qed.

Lemma clean_text_leading s : leading_space (clean_text s) = leading_space s.
Proof. rewrite clean_text_spaced. now rewrite !space_pairs_leading. Qed.

Lemma clean_text_trailing s :
  trailing_space (clean_text s) = trailing_space s.
Proof. rewrite clean_text_spaced. now rewrite !space_pairs_trailing. Qed.

(** ** Statements without a fence *)

Lemma match_lits_none p r s :
  startswith p s = false -> match_here (lits p ++ r) s = None.
Proof.
  revert s. induction p as [|x p IH]; intros s H; [discriminate|].
  destruct s as [|y s]; [reflexivity|].
  cbn [lits map app match_here]. cbn [startswith] in H.
  rewrite N.eqb_sym. destruct (x =? y); [|reflexivity].
  rewrite andb_true_l in H. fold (lits p). now rewrite (IH _ H).
Qed.

(** A pattern that begins with a literal text absent from the string
    matches nowhere, and the substitution changes nothing. *)
Lemma re_sub_absent p r tpl s :
  contains p s = false -> re_sub (lits p ++ r) tpl s = s.
Proof.
  unfold re_sub. induction s as [|c s IH]; intros H.
  - simpl in H. rewrite orb_false_r in H.
    cbn [re_sub_from]. now rewrite (match_lits_none _ _ _ H).
  - rewrite contains_cons in H. apply orb_false_iff in H as [H1 H2].
    rewrite re_sub_from_scan, (match_lits_none _ _ _ H1).
    f_equal. auto.
Qed.

Lemma lstrip_fixed s : leading_space s = false -> lstrip s = s.
Proof. destruct s as [|c s]; simpl; [reflexivity|]. now intros ->. Qed.

Lemma rstrip_fixed s : trailing_space s = false -> rstrip s = s.
Proof.
  unfold trailing_space, rstrip. intros H.
  rewrite (lstrip_fixed _ H). apply rev_involutive.
Qed.

Lemma strip_fixed s :
  leading_space s = false -> trailing_space s = false -> strip s = s.
Proof.
  intros H1 H2. unfold strip. rewrite (lstrip_fixed _ H1).
  now apply rstrip_fixed.
Qed.

Lemma strip_strip s : strip (strip s) = strip s.
Proof. apply strip_fixed; [apply strip_leading | apply strip_trailing]. Qed.

Lemma extract_sql_plain raw :
  contains ticks3 raw = false -> extract_sql raw = strip raw.
Proof.
  intros H. unfold extract_sql.
  pose proof (strip_keeps_absent _ _ H) as Hs.
  change fence_sql with (lits (py "```sql") ++ [Opt LF]).
  rewrite (re_sub_absent (py "```sql") [Opt LF] [] (strip raw))
    by (apply (contains_longer ticks3 (py "sql")); exact Hs).
  change fence_bare with (lits ticks3 ++ [Opt LF]).
  rewrite (re_sub_absent ticks3 [Opt LF] [] (strip raw) Hs).
  apply strip_strip.
Qed.

(* ================================================================== *)
(** * Further properties of frames and of the fallback formatter *)

Lemma has_key_combine k cols (vals : list cell) :
  has_key k (combine cols vals) = true ->
  existsb (str_eqb k) cols = true.
Proof.
  unfold has_key. revert vals.
  induction cols as [|c cols IH]; intros [|v vals]; simpl; auto;
    try discriminate.
  destruct (str_eqb k c); simpl; eauto.
Qed.

Lemma has_key_iterrows k df row :
  In row (iterrows df) -> has_key k row = true ->
  existsb (str_eqb k) (columns df) = true.
Proof.
  unfold iterrows. intros H. apply in_map_iff in H as [vals [<- _]].
  apply has_key_combine.
Qed.

(** What makes a labelled row raise: the conversion of its price. *)
Lemma labelled_row_raises row e :
  labelled_row row = Exn e ->
  exists v, lookup (py "price_per_item") row = Some v /\
            cell_float v = Exn e.
Proof.
  unfold labelled_row.
  destruct (detail_ok row (py "Size: ") (py "size") []) as [d1 ->].
  destruct (detail_ok row (py "Color: ") (py "color") []) as [d2 ->].
  destruct (detail_ok row (py "Stock: ") (py "stock_quantity") (py " units"))
    as [d4 E4].
  cbn [bind_result]. unfold price_detail, getitem.
  destruct (has_key (py "price_per_item") row) eqn:E.
  - apply has_key_lookup in E as [v E]. rewrite E. cbn [bind_result].
    destruct (cell_float v) as [x|e'] eqn:F; cbn [bind_result].
    + rewrite E4. discriminate.
    + intros H. injection H as <-. eauto.
  - cbn [bind_result]. rewrite E4. discriminate.
Qed.

Lemma render_rows_raises rows : forall acc e,
  render_rows acc rows = Exn e ->
  exists row, In row rows /\ render_row row = Exn e.
Proof.
  induction rows as [|row rows IH]; simpl; intros acc e H; [discriminate|].
  destruct (render_row row) as [t|e'] eqn:E; simpl in H.
  - apply IH in H as [r [Hin Hr]]. eauto.
  - injection H as <-. eauto.
Qed.

(** The first row that cannot be rendered ends the loop with its
    exception. *)
Lemma render_rows_first_failure pre row post e : forall acc,
  (forall r, In r pre -> exists t, render_row r = Ok t) ->
  render_row row = Exn e ->
  render_rows acc (pre ++ row :: post) = Exn e.
Proof.
  induction pre as [|r pre IH]; simpl; intros acc Hpre Hrow.
  - now rewrite Hrow.
  - destruct (Hpre r (or_introl eq_refl)) as [t ->]. simpl.
    apply IH; auto.
Qed.

(* ================================================================== *)
(** * Further properties of the pipeline *)

Lemma count_app p a b : count p (a ++ b) = (count p a + count p b)%nat.
Proof. unfold count. now rewrite filter_app, length_app. Qed.

(** Every path of the executor.  It raises only when [connect] raises
    an exception that is not a [mysql.connector.Error]; otherwise it
    returns, with rows and no error or with an error and no rows.  It
    tries to connect once and executes at most one statement, the one it
    was given. *)
Lemma execute_query_paths env sql w :
  exists r evs l,
    execute_query env sql w = (r, after w evs l) /\
    match r with
    | Ok (results, error) =>
        (exists rs, results = Some rs /\ error = None /\
                    run_sql env sql = Rows rs) \/
        (results = None /\ exists e, error = Some e)
    | Exn e => connect env = Escapes e /\ evs = [DbConnect] /\ l = conn w
    end /\
    count is_model_call evs = 0%nat /\
    count is_connect evs = 1%nat /\
    (count is_execute evs <= 1)%nat /\
    (forall s, In (DbExecute s) evs -> s = sql) /\
    (l = conn w \/ l = Closed \/ l = Dropped).
Proof.
  destruct (connect env) as [|e|e] eqn:Hc.
  - destruct (run_sql env sql) as [rs|st e alive] eqn:Hr.
    + do 3 eexists. split; [apply (execute_query_rows _ _ _ _ Hc Hr)|].
      split; [left; eauto|]. repeat split; auto.
      intros s [H|[H|[H|[H|[H|[H|[]]]]]]]; try discriminate H.
      now injection H as <-.
    + do 3 eexists. split; [apply (execute_query_fails _ _ _ _ _ _ Hc Hr)|].
      split; [right; eauto|].
      destruct st, alive; cbn; repeat split; auto;
        intros s H;
        repeat (destruct H as [H|H];
                [try discriminate H; now injection H as <-|]);
        destruct H.
  - do 3 eexists. split; [apply (execute_query_refused _ _ _ _ Hc)|].
    split; [right; eauto|]. repeat split; auto.
    intros s [H|[H|[]]]; discriminate H.
  - do 3 eexists. split; [apply (execute_query_escapes _ _ _ _ Hc)|].
    split; [auto|]. repeat split; auto.
    intros s [H|[]]; discriminate H.
Qed.

(** Every path of the formatter: at most one call, to the model, and the
    connection is not touched. *)
Lemma format_response_paths env question results error w :
  exists r evs,
    format_response env question results error w = (r, after w evs (conn w)) /\
    (evs = [] \/ exists prompt, evs = [ModelCall prompt]).
Proof.
  destruct (truthy error) eqn:He.
  - destruct error as [[|c e]|]; try discriminate He.
    do 2 eexists. split; [|left; reflexivity].
    rewrite after_nil. apply format_response_error. discriminate.
  - destruct (truthy results) eqn:Hr.
    + destruct results as [[|r rs]|]; try discriminate Hr.
      destruct error as [[|c e]|]; try discriminate He;
        (destruct (generate_content env
                     (response_prompt env question (pd_DataFrame (frame_rows env (r :: rs)))))
           as [raw|cause] eqn:Hg;
         do 2 eexists; (split; [|right; eauto]);
         unfold format_response, try_except, model_generate, lift;
         cbn [truthy negb]; rewrite !bind_eq, log_after, Hg; reflexivity).
    + do 2 eexists. split; [|left; reflexivity].
      rewrite after_nil. now apply format_response_nothing.
Qed.

Lemma translation_paths env question w :
  exists sql,
    natural_language_to_sql env question w =
    (Ok sql, after w [ModelCall (translation_prompt env question)] (conn w)) /\
    match generate_content env (translation_prompt env question) with
    | Ok raw => sql = extract_sql raw
    | Exn cause => sql = py "Error generating SQL: " ++ cause
    end.
Proof.
  destruct (generate_content env (translation_prompt env question))
    as [raw|cause] eqn:Hg; eexists; (split; [|reflexivity]).
  - now apply translation_succeeds.
  - now apply translation_fails.
Qed.

(** Every path of a request, whether it ends normally or in a fault. *)
Lemma main_paths env question w :
  exists r evs l,
    main_get_answer env question w = (r, after w evs l) /\
    (count is_model_call evs <= 2)%nat /\
    (count is_connect evs <= 1)%nat /\
    (count is_execute evs <= 1)%nat /\
    (l = conn w \/ l = Closed \/ l = Dropped).
Proof.
  destruct question as [|c q].
  { do 3 eexists. split; [apply log_after|]. cbn. auto. }
  assert (c :: q <> []) as Hq by discriminate.
  destruct (translation_paths env (c :: q) w) as [sql [Ht _]].
  destruct (startswith (py "Error") sql) eqn:He.
  { do 3 eexists. split.
    - rewrite (main_short_circuit _ _ _ _ _ Hq Ht He).
      rewrite after_after. reflexivity.
    - cbn. auto. }
  set (w1 := after w [ModelCall (translation_prompt env (c :: q))] (conn w))
    in *.
  destruct (execute_query_paths env sql w1)
    as [rx [evs [l [Hx [_ [Hm [Hc [He' [_ Hl]]]]]]]]].
  destruct rx as [[results error]|e].
  2:{ do 3 eexists. split.
      - rewrite (main_propagates_executor _ _ _ _ _ _ _ Hq Ht He Hx).
        unfold w1. rewrite !after_after. reflexivity.
      - rewrite !count_app, Hm, Hc. cbn.
        repeat split; try lia; exact Hl. }
  destruct (format_response_paths env (c :: q) results error (after w1 evs l))
    as [r [evs' [Hf Hevs']]].
  cbn [conn after] in Hf.
  assert (count is_model_call evs' <= 1 /\ count is_connect evs' = 0 /\
          count is_execute evs' = 0)%nat as [Hm' [Hc' He'']].
  { destruct Hevs' as [->|[p ->]]; cbn; auto. }
  destruct r as [response|e].
  - do 3 eexists. split.
    + rewrite (main_proceeds _ _ _ _ _ _ _ _ _ _ Hq Ht He Hx Hf).
      unfold w1. rewrite !after_after. cbn [conn after]. reflexivity.
    + rewrite !count_app, Hm, Hc, Hc', He''.
      destruct results as [[|r rs]|]; cbn; repeat split; try lia; exact Hl.
  - do 3 eexists. split.
    + rewrite (main_propagates _ _ _ _ _ _ _ _ _ _ Hq Ht He Hx Hf).
      unfold w1. rewrite !after_after. reflexivity.
    + rewrite !count_app, Hm, Hc, Hc', He''.
      cbn. repeat split; try lia; exact Hl.
Qed.

(* ================================================================== *)
(** * Properties of the Quick Stats panel *)

Lemma screen_after_after s a l b l' :
  screen_after (screen_after s a l) b l' = screen_after s (a ++ b) l'.
Proof. unfold screen_after. simpl. now rewrite app_assoc. Qed.

Lemma screen_after_nil s : screen_after s [] (wire s) = s.
Proof. unfold screen_after. rewrite app_nil_r. now destruct s. Qed.

Lemma plog_after ev s : plog ev s = (Ok tt, screen_after s [ev] (wire s)).
Proof. reflexivity. Qed.

Lemma pbind_eq {A B} (m : PM A) (k : A -> PM B) s :
  pbind m k s = match m s with
                | (Ok a, s') => k a s'
                | (Exn e, s') => (Exn e, s')
                end.
Proof. reflexivity. Qed.

Lemma shared_failure {A} e alive s :
  shared (@db_failure A e alive) s =
  (Exn e, screen_after s [] (if alive then wire s else Dropped)).
Proof. destruct alive; reflexivity. Qed.

Lemma shared_connect env s :
  shared (get_db_connection env) s =
  match connect env with
  | Acquired => (Ok true, screen_after s [Shared DbConnect] Connected)
  | Refused e =>
      (Ok false,
       screen_after s
         [Shared DbConnect;
          Shared (StError (py "Database connection failed: " ++ e))]
         (wire s))
  | Escapes e => (Exn e, screen_after s [Shared DbConnect] (wire s))
  end.
Proof.
  unfold shared, get_db_connection. rewrite bind_eq, log_after.
  destruct (connect env); reflexivity.
Qed.

(** One turn of the loop. *)
Lemma collect_stats_step panel key query rest stats s :
  collect_stats panel ((key, query) :: rest) stats s =
  match fetch_one panel query with
  | Fetched row =>
      match stat_entry key row with
      | Ok v =>
          collect_stats panel rest (dict_set stats key v)
            (screen_after s (query_calls (key, query)) (wire s))
      | Exn e =>
          (Exn e, screen_after s (query_calls (key, query)) (wire s))
      end
  | Broken false e alive =>
      (Exn e,
       screen_after s [Shared (DbExecute query)]
         (if alive then wire s else Dropped))
  | Broken true e alive =>
      (Exn e,
       screen_after s (query_calls (key, query))
         (if alive then wire s else Dropped))
  end.
Proof.
  cbn [collect_stats]. unfold panel_execute, panel_fetchone.
  rewrite !pbind_eq, plog_after.
  destruct (fetch_one panel query) as [row|[|] e alive].
  - unfold pret. rewrite !pbind_eq, plog_after, screen_after_after.
    cbn [app wire screen_after]. rewrite pbind_eq.
    destruct (stat_entry key row); reflexivity.
  - unfold pret. rewrite !pbind_eq, plog_after, shared_failure.
    rewrite !screen_after_after. destruct alive; reflexivity.
  - rewrite shared_failure, screen_after_after. destruct alive; reflexivity.
Qed.

Lemma map_Ok_inj (a b : list pystr) : map (@Ok pystr) a = map Ok b -> a = b.
Proof.
  revert b. induction a as [|x a IH]; intros [|y b] H; try discriminate;
    [reflexivity|].
  injection H as -> H. f_equal. auto.
Qed.

Lemma existsb_app_false {A} (p : A -> bool) a b :
  existsb p a = false -> existsb p b = false -> existsb p (a ++ b) = false.
Proof. intros Ha Hb. now rewrite existsb_app, Ha, Hb. Qed.

(** Every path of the loop: it stores a value for every query, or it
    stops at the first call that raises, having closed nothing and shown
    nothing. *)
Lemma collect_stats_paths panel qs : forall stats s,
  (exists vs,
     map (entry_of panel) qs = map Ok vs /\
     collect_stats panel qs stats s =
     (Ok (fold_left set_pair (combine (map fst qs) vs) stats),
      screen_after s (flat_map query_calls qs) (wire s))) \/
  (exists e evs l,
     collect_stats panel qs stats s = (Exn e, screen_after s evs l) /\
     (forall vs, map (entry_of panel) qs <> map Ok vs) /\
     existsb is_metric evs = false /\
     existsb is_panel_close evs = false /\
     (l = wire s \/ (l = Dropped /\ drops panel))).
Proof.
  induction qs as [|[key query] rest IH]; intros stats s.
  - left. exists []. split; [reflexivity|].
    cbn. now rewrite screen_after_nil.
  - rewrite collect_stats_step.
    destruct (fetch_one panel query) as [row|at_fetchone e alive] eqn:Hf.
    + destruct (stat_entry key row) as [v|e] eqn:Hv.
      * destruct (IH (dict_set stats key v)
                    (screen_after s (query_calls (key, query)) (wire s)))
          as [[vs [Hvs Hc]]|[e [evs [l [Hc [Hn [Hm [Hcl Hl]]]]]]]].
        -- left. exists (v :: vs). split.
           ++ cbn [map]. rewrite Hvs. f_equal.
              unfold entry_of. cbn [fst snd]. now rewrite Hf.
           ++ rewrite Hc, screen_after_after. reflexivity.
        -- right. exists e, (query_calls (key, query) ++ evs), l.
           split; [now rewrite Hc, screen_after_after|].
           split; [|split; [|split]].
           ++ intros [|v' vs] H; [discriminate|].
              cbn [map] in H. injection H as _ H. now apply (Hn vs).
           ++ now apply existsb_app_false.
           ++ now apply existsb_app_false.
           ++ exact Hl.
      * right. exists e, (query_calls (key, query)), (wire s).
        split; [reflexivity|]. split; [|auto].
        intros [|v' vs] H; [discriminate|].
        cbn [map] in H. injection H as H _.
        unfold entry_of in H. cbn [fst snd] in H. rewrite Hf in H. congruence.
    + assert (forall vs,
                map (entry_of panel) ((key, query) :: rest) <> map Ok vs) as Hn.
      { intros [|v' vs] H; [discriminate|].
        cbn [map] in H. injection H as H _.
        unfold entry_of in H. cbn [fst snd] in H. now rewrite Hf in H. }
      assert (alive = false -> drops panel) as Hd.
      { intros ->. right. eauto. }
      right. destruct at_fetchone.
      * exists e, (query_calls (key, query)), (if alive then wire s else Dropped).
        split; [reflexivity|]. split; [exact Hn|]. split; [reflexivity|].
        split; [reflexivity|]. destruct alive; auto.
      * exists e, [Shared (DbExecute query)],
          (if alive then wire s else Dropped).
        split; [reflexivity|]. split; [exact Hn|]. split; [reflexivity|].
        split; [reflexivity|]. destruct alive; auto.
Qed.

(** The body of the panel up to the loop, once the connection is there. *)
Lemma quick_stats_unfold panel s :
  connect (panel_env panel) = Acquired ->
  main_quick_stats panel s =
  match open_cursor panel with
  | Some (e, alive) =>
      (Ok tt,
       screen_after s
         [Shared DbConnect; Shared DbCursor;
          Shared (StError (py "Error loading stats: " ++ e))]
         (if alive then Connected else Dropped))
  | None =>
      let s1 := screen_after s [Shared DbConnect; Shared DbCursor] Connected in
      match collect_stats panel queries [] s1 with
      | (Exn e, s2) =>
          (Ok tt,
           screen_after s2
             [Shared (StError (py "Error loading stats: " ++ e))] (wire s2))
      | (Ok stats, s2) =>
          ptry
            (pbind (shared cursor_close) (fun _ =>
             pbind (shared conn_close) (fun _ =>
             pbind (show_metric stats (py "Total Products")
                      (py "Total Products")) (fun _ =>
             pbind (show_metric stats (py "Brands Available")
                      (py "Brands Available")) (fun _ =>
             pbind (show_metric stats (py "Low Stock Items (< 10 units)")
                      (py "Low Stock Items")) (fun _ =>
             pbind (show_metric stats (py "Active Discounts")
                      (py "Active Discounts")) (fun _ =>
             show_metric stats (py "Average Price")
               (py "Average Price"))))))))
            (fun e =>
               plog (Shared (StError (py "Error loading stats: " ++ e))))
            s2
      end
  end.
Proof.
  intros Hc. unfold main_quick_stats, ptry at 1.
  rewrite pbind_eq, shared_connect, Hc. unfold panel_cursor.
  rewrite !pbind_eq, plog_after, screen_after_after. cbn [app].
  destruct (open_cursor panel) as [[e alive]|].
  - rewrite shared_failure, screen_after_after, plog_after,
      screen_after_after.
    destruct alive; reflexivity.
  - unfold pret. cbv zeta. cbn [wire screen_after]. rewrite pbind_eq.
    destruct (collect_stats panel queries []
                (screen_after s [Shared DbConnect; Shared DbCursor] Connected))
      as [[stats|e] s2].
    + reflexivity.
    + apply plog_after.
Qed.

Lemma shared_cursor_close s :
  shared cursor_close s = (Ok tt, screen_after s [Shared CursorClose] (wire s)).
Proof. reflexivity. Qed.

Lemma shared_conn_close s :
  shared conn_close s = (Ok tt, screen_after s [Shared ConnClose] Closed).
Proof. reflexivity. Qed.

Lemma show_metric_ok stats label key v s :
  dict_get stats key = Ok v ->
  show_metric stats label key s =
  (Ok tt, screen_after s [StMetric label v] (wire s)).
Proof.
  intros H. unfold show_metric. rewrite pbind_eq, H. apply plog_after.
Qed.

(** When the cursor opens and every query yields a value, the panel runs
    to its end. *)
Lemma quick_stats_runs panel vs s :
  connect (panel_env panel) = Acquired ->
  open_cursor panel = None ->
  map (entry_of panel) queries = map Ok vs ->
  main_quick_stats panel s =
  (Ok tt,
   screen_after s
     ([Shared DbConnect; Shared DbCursor] ++ flat_map query_calls queries ++
      [Shared CursorClose; Shared ConnClose] ++ metrics vs) Closed).
Proof.
  intros Hc Ho Hvs. rewrite (quick_stats_unfold _ _ Hc), Ho. cbv zeta.
  destruct (collect_stats_paths panel queries []
              (screen_after s [Shared DbConnect; Shared DbCursor] Connected))
    as [[vs' [Hvs' ->]]|[e [evs [l [_ [Hn _]]]]]];
    [|now destruct (Hn vs)].
  rewrite Hvs in Hvs'. apply map_Ok_inj in Hvs'. subst vs'.
  destruct vs as [|v1 [|v2 [|v3 [|v4 [|v5 [|v6 vs]]]]]];
    try discriminate Hvs.
  set (stats := fold_left set_pair
                  (combine (map fst queries) [v1; v2; v3; v4; v5]) []).
  assert (dict_get stats (py "Total Products") = Ok v1) as G1
    by reflexivity.
  assert (dict_get stats (py "Brands Available") = Ok v2) as G2
    by reflexivity.
  assert (dict_get stats (py "Low Stock Items") = Ok v3) as G3
    by reflexivity.
  assert (dict_get stats (py "Active Discounts") = Ok v4) as G4
    by reflexivity.
  assert (dict_get stats (py "Average Price") = Ok v5) as G5
    by reflexivity.
  unfold ptry.
  rewrite pbind_eq, shared_cursor_close.
  rewrite pbind_eq, shared_conn_close.
  rewrite pbind_eq, (show_metric_ok _ _ _ _ _ G1).
  rewrite pbind_eq, (show_metric_ok _ _ _ _ _ G2).
  rewrite pbind_eq, (show_metric_ok _ _ _ _ _ G3).
  rewrite pbind_eq, (show_metric_ok _ _ _ _ _ G4).
  rewrite (show_metric_ok _ _ _ _ _ G5).
  rewrite !screen_after_after. reflexivity.
Qed.

(** When the cursor does not open, or some query yields no value, the
    panel reports the error and stops: nothing is closed and no metric
    is shown. *)
Lemma quick_stats_fails panel s :
  connect (panel_env panel) = Acquired ->
  open_cursor panel <> None \/
  (forall vs, map (entry_of panel) queries <> map Ok vs) ->
  exists e evs l,
    main_quick_stats panel s =
    (Ok tt,
     screen_after s
       (evs ++ [Shared (StError (py "Error loading stats: " ++ e))]) l) /\
    existsb is_metric evs = false /\
    existsb is_panel_close evs = false /\
    (l = Connected \/ (l = Dropped /\ drops panel)).
Proof.
  intros Hc H. rewrite (quick_stats_unfold _ _ Hc).
  destruct (open_cursor panel) as [[e alive]|] eqn:Ho.
  - exists e, [Shared DbConnect; Shared DbCursor],
      (if alive then Connected else Dropped).
    split; [reflexivity|]. split; [reflexivity|]. split; [reflexivity|].
    destruct alive; [now left|]. right. split; [reflexivity|].
    left. eauto.
  - destruct H as [H|H]; [congruence|]. cbv zeta.
    destruct (collect_stats_paths panel queries []
                (screen_after s [Shared DbConnect; Shared DbCursor] Connected))
      as [[vs [Hvs _]]|[e [evs [l [-> [_ [Hm [Hcl Hl]]]]]]]];
      [now destruct (H vs)|].
    exists e, ([Shared DbConnect; Shared DbCursor] ++ evs), l.
    split; [now rewrite !screen_after_after, app_assoc|].
    split; [exact Hm|]. split; [exact Hcl|]. exact Hl.
Qed.

(** An exception of another type raised by [connect] is caught by the
    panel like any other. *)
Lemma quick_stats_escapes_eq panel e s :
  connect (panel_env panel) = Escapes e ->
  main_quick_stats panel s =
  (Ok tt,
   screen_after s
     [Shared DbConnect; Shared (StError (py "Error loading stats: " ++ e))]
     (wire s)).
Proof.
  intros Hc. unfold main_quick_stats, ptry.
  rewrite pbind_eq, shared_connect, Hc, plog_after, screen_after_after.
  reflexivity.
Qed.

Lemma quick_stats_refused_eq panel e s :
  connect (panel_env panel) = Refused e ->
  main_quick_stats panel s =
  (Ok tt,
   screen_after s
     [Shared DbConnect;
      Shared (StError (py "Database connection failed: " ++ e));
      Shared (StError (py "Database connection failed. Cannot load stats."))]
     (wire s)).
Proof.
  intros Hc. unfold main_quick_stats, ptry.
  rewrite pbind_eq, shared_connect, Hc, plog_after, screen_after_after.
  reflexivity.
Qed.

(* ================================================================== *)
(** * Further properties the code shows *)

(** ** [clean_response_text] *)

(** X1: the cleanup only ever inserts spaces: with the spaces taken out,
    the cleaned text and the original are the same text. *)
Theorem cleanup_only_inserts_spaces (s : pystr) :
  despace (clean_response_text (PyStr s)) = despace s.
Proof.
  change (clean_response_text (PyStr s)) with (clean_text s).
  rewrite clean_text_spaced.
  now rewrite !(space_pairs_despace _ _ _ _ (le_n _)).
Qed.

(** X2: after the cleanup no period is directly followed by a capital
    letter, no lowercase letter by a capital letter, and no digit by a
    letter. *)
Theorem cleanup_repairs_every_defect (s : pystr) :
  well_spaced (clean_response_text (PyStr s)) = true.
Proof. apply well_spaced_iff, clean_text_no_pairs. Qed.

(** X3: the texts the cleanup returns unchanged are exactly those with
    none of the three defects. *)
Theorem cleanup_fixed_points (s : pystr) :
  clean_response_text (PyStr s) = s <-> well_spaced s = true.
Proof.
  change (clean_response_text (PyStr s)) with (clean_text s). split.
  - intros E. rewrite <- E. apply well_spaced_iff, clean_text_no_pairs.
  - intros H. apply well_spaced_iff in H as [H1 [H2 H3]].
    rewrite clean_text_spaced.
    now rewrite (space_pairs_fixed _ _ s H1), (space_pairs_fixed _ _ s H2),
      (space_pairs_fixed _ _ s H3).
Qed.

(** ** [natural_language_to_sql] *)

(** X4: model output without a code fence is only stripped: the
    statement comes through character for character. *)
Theorem extraction_without_fence_strips (raw : pystr) :
  contains (py "```") raw = false -> extract_sql raw = strip raw.
Proof. apply extract_sql_plain. Qed.

Lemma extraction_without_fence_strips_witness :
  contains (py "```") (py "  SELECT `id` FROM inventory;  ") = false /\
  extract_sql (py "  SELECT `id` FROM inventory;  ")
  = strip (py "  SELECT `id` FROM inventory;  ").
Proof.
  split; [reflexivity|].
  exact (extraction_without_fence_strips
           (py "  SELECT `id` FROM inventory;  ") eq_refl).
Defined.

(** X5: extracting twice is extracting once. *)
Theorem extraction_idempotent (raw : pystr) :
  extract_sql (extract_sql raw) = extract_sql raw.
Proof.
  rewrite (extract_sql_plain _ (extract_sql_no_fence raw)).
  apply strip_fixed; [apply strip_leading | apply strip_trailing].
Qed.

(** X6: the translator never raises and calls the model exactly once,
    without retry; it touches neither the database nor the screen.  Its
    result is the extracted model text, or the cause of the failure
    behind the prefix "Error generating SQL: ". *)
Theorem translator_always_returns env question w :
  exists sql,
    natural_language_to_sql env question w =
    (Ok sql, after w [ModelCall (translation_prompt env question)] (conn w)) /\
    match generate_content env (translation_prompt env question) with
    | Ok raw => sql = extract_sql raw
    | Exn cause => sql = py "Error generating SQL: " ++ cause
    end.
Proof. apply translation_paths. Qed.

(** ** [execute_query] *)

(** X7: when no connection can be had, the executor returns no rows and
    the fixed error "Database connection failed"; it shows the cause with
    [st.error] and makes no cursor, execute or fetch call. *)
Theorem refused_connection_skips_execution env sql e w :
  connect env = Refused e ->
  execute_query env sql w =
  (Ok (None, Some (py "Database connection failed")),
   after w [DbConnect; StError (py "Database connection failed: " ++ e)]
     (conn w)).
Proof. apply execute_query_refused. Qed.

Lemma refused_connection_skips_execution_witness :
  connect (unreachable_env (py "Access denied")) = Refused (py "Access denied")
  /\
  execute_query (unreachable_env (py "Access denied")) select_all fresh =
  (Ok (None, Some (py "Database connection failed")),
   after fresh
     [DbConnect; StError (py "Database connection failed: Access denied")]
     (conn fresh)).
Proof.
  split; [reflexivity|].
  exact (refused_connection_skips_execution
           (unreachable_env (py "Access denied")) select_all
           (py "Access denied") fresh eq_refl).
Defined.

(** X8: the executor raises in one case only: when [connect] raises an
    exception that is not a [mysql.connector.Error], that exception
    leaves [execute_query] before any cursor is made.  In every other
    case it returns, either rows and no error, the rows being those the
    database gave, or no rows and an error: never both and never
    neither. *)
Theorem executor_rows_or_error env sql w :
  match connect env with
  | Escapes e =>
      execute_query env sql w = (Exn e, after w [DbConnect] (conn w))
  | _ =>
      exists results error w',
        execute_query env sql w = (Ok (results, error), w') /\
        ((exists rs, results = Some rs /\ error = None /\
                     run_sql env sql = Rows rs) \/
         (results = None /\ exists e, error = Some e))
  end.
Proof.
  destruct (connect env) as [|e|e] eqn:Hc.
  - destruct (run_sql env sql) as [rs|st e alive] eqn:Hr.
    + do 3 eexists. split; [apply (execute_query_rows _ _ _ _ Hc Hr)|].
      left. eauto.
    + do 3 eexists. split; [apply (execute_query_fails _ _ _ _ _ _ Hc Hr)|].
      right. eauto.
  - do 3 eexists. split; [apply (execute_query_refused _ _ _ _ Hc)|].
    right. eauto.
  - apply (execute_query_escapes _ _ _ _ Hc).
Qed.

(** X9: one call of the executor tries to connect exactly once, executes
    at most one statement, which is the statement it was given, unchanged,
    and never calls the model. *)
Theorem executor_runs_statement_once env sql w :
  exists r evs l,
    execute_query env sql w = (r, after w evs l) /\
    count is_connect evs = 1%nat /\
    (count is_execute evs <= 1)%nat /\
    (forall s, In (DbExecute s) evs -> s = sql) /\
    count is_model_call evs = 0%nat.
Proof.
  destruct (execute_query_paths env sql w)
    as [r [evs [l [H [_ [Hm [Hc [He [Hs _]]]]]]]]].
  exists r, evs, l. auto.
Qed.

(** ** [format_response] *)

(** X10: an error with a message is answered by the apology that embeds
    it, whatever rows come with it, and without a call to the model. *)
Theorem error_gets_apology_without_model env question results e w :
  e <> [] ->
  format_response env question results (Some e) w =
  (Ok (py "I apologize, but I encountered an error processing your question: "
       ++ e), w).
Proof. apply format_response_error. Qed.

Lemma error_gets_apology_without_model_witness :
  py "Unknown column 'colour'" <> [] /\
  format_response (sample_env [nike_row] (Ok (py "We have one.")))
    sample_question (Some [nike_row]) (Some (py "Unknown column 'colour'"))
    fresh =
  (Ok (py "I apologize, but I encountered an error processing your question: "
       ++ py "Unknown column 'colour'"), fresh).
Proof.
  assert (py "Unknown column 'colour'" <> []) as H
    by (vm_compute; discriminate).
  split; [exact H|].
  exact (error_gets_apology_without_model
           (sample_env [nike_row] (Ok (py "We have one.")))
           sample_question (Some [nike_row]) (py "Unknown column 'colour'")
           fresh H).
Defined.

(** X11: when the narration call succeeds, the answer is the model's text
    with its surrounding whitespace removed and spaces inserted: it has
    none of the three spacing defects, neither begins nor ends with
    whitespace, and apart from spaces it is the stripped model text.  One
    model call is made and nothing else. *)
Theorem narrated_answer_is_clean env question r rs raw w :
  generate_content env
    (response_prompt env question (pd_DataFrame (frame_rows env (r :: rs)))) = Ok raw ->
  exists text,
    format_response env question (Some (r :: rs)) None w =
    (Ok text,
     after w [ModelCall (response_prompt env question (pd_DataFrame (frame_rows env (r :: rs))))]
       (conn w)) /\
    well_spaced text = true /\
    leading_space text = false /\
    trailing_space text = false /\
    despace text = despace (strip raw).
Proof.
  intros H. exists (clean_text (strip raw)).
  split; [apply (format_response_narrated _ _ _ _ _ _ H)|].
  split; [apply well_spaced_iff, clean_text_no_pairs|].
  split; [rewrite clean_text_leading; apply strip_leading|].
  split; [rewrite clean_text_trailing; apply strip_trailing|].
  rewrite clean_text_spaced.
  now rewrite !(space_pairs_despace _ _ _ _ (le_n _)).
Qed.

Lemma narrated_answer_is_clean_witness :
  generate_content (sample_env [nike_row] (Ok (py " Yes.We have3in stock ")))
    (response_prompt (sample_env [nike_row] (Ok (py " Yes.We have3in stock ")))
       sample_question (pd_DataFrame [nike_row]))
  = Ok (py " Yes.We have3in stock ") /\
  exists text,
    format_response (sample_env [nike_row] (Ok (py " Yes.We have3in stock ")))
      sample_question (Some [nike_row]) None fresh =
    (Ok text,
     after fresh
       [ModelCall
          (response_prompt
             (sample_env [nike_row] (Ok (py " Yes.We have3in stock ")))
             sample_question (pd_DataFrame [nike_row]))] (conn fresh)) /\
    well_spaced text = true /\
    leading_space text = false /\
    trailing_space text = false /\
    despace text = despace (strip (py " Yes.We have3in stock ")).
Proof.
  assert (generate_content
            (sample_env [nike_row] (Ok (py " Yes.We have3in stock ")))
            (response_prompt
               (sample_env [nike_row] (Ok (py " Yes.We have3in stock ")))
               sample_question (pd_DataFrame [nike_row]))
          = Ok (py " Yes.We have3in stock ")) as H
    by (vm_compute; reflexivity).
  split; [exact H|].
  exact (narrated_answer_is_clean _ _ _ _ _ fresh H).
Defined.

(** ** [format_dataframe_simple] *)

Lemma lookup_has_key k d v : lookup k d = Some v -> has_key k d = true.
Proof.
  unfold has_key. induction d as [|[k' v'] d IH]; simpl; [discriminate|].
  destruct (str_eqb k k'); simpl; auto.
Qed.

(** X12: whatever the formatter returns is either the fixed message, for
    an empty frame, or a text that begins with "Found n results:" and an
    empty line, n being the number of rows of the frame. *)
Theorem fallback_header_counts_rows df text :
  format_dataframe_simple df = Ok text ->
  (df_empty df = true /\ text = py "No results found.") \/
  (df_empty df = false /\
   startswith (found_header (df_len df)) text = true).
Proof.
  unfold format_dataframe_simple. destruct (df_empty df).
  - intros H. injection H as <-. now left.
  - intros H. right. split; [reflexivity|].
    apply render_rows_extends in H as [u ->].
    apply startswith_spec. now exists u.
Qed.

Lemma fallback_header_counts_rows_witness :
  format_dataframe_simple (pd_DataFrame [count_row; count_row])
  = Ok (found_header 2 ++ py "total: 42" ++ [LF; LF]
        ++ py "total: 42" ++ [LF; LF]) /\
  ((df_empty (pd_DataFrame [count_row; count_row]) = true /\
    found_header 2 ++ py "total: 42" ++ [LF; LF] ++ py "total: 42" ++ [LF; LF]
    = py "No results found.") \/
   (df_empty (pd_DataFrame [count_row; count_row]) = false /\
    startswith (found_header (df_len (pd_DataFrame [count_row; count_row])))
      (found_header 2 ++ py "total: 42" ++ [LF; LF]
       ++ py "total: 42" ++ [LF; LF]) = true)).
Proof.
  assert (format_dataframe_simple (pd_DataFrame [count_row; count_row])
          = Ok (found_header 2 ++ py "total: 42" ++ [LF; LF]
                ++ py "total: 42" ++ [LF; LF])) as H
    by (vm_compute; reflexivity).
  split; [exact H|].
  exact (fallback_header_counts_rows _ _ H).
Defined.

(** X13: a frame without a [price_per_item] column is always rendered:
    the formatter cannot raise on it, whatever its cells hold. *)
Theorem fallback_without_price_never_raises df :
  existsb (str_eqb (py "price_per_item")) (columns df) = false ->
  exists text, format_dataframe_simple df = Ok text.
Proof.
  intros H. unfold format_dataframe_simple.
  destruct (df_empty df); [eauto|].
  apply render_rows_ok. intros row Hin. unfold render_row.
  destruct (has_key (py "brand") row && has_key (py "product_name") row);
    [|eauto].
  apply labelled_row_ok. intros v Hv.
  apply lookup_has_key in Hv.
  apply (has_key_iterrows _ _ _ Hin) in Hv. congruence.
Qed.

Lemma fallback_without_price_never_raises_witness :
  existsb (str_eqb (py "price_per_item"))
    (columns (pd_DataFrame [[(py "brand", null_cell);
                             (py "product_name", null_cell)]])) = false /\
  exists text,
    format_dataframe_simple
      (pd_DataFrame [[(py "brand", null_cell);
                      (py "product_name", null_cell)]]) = Ok text.
Proof.
  split; [reflexivity|].
  exact (fallback_without_price_never_raises
           (pd_DataFrame [[(py "brand", null_cell);
                           (py "product_name", null_cell)]]) eq_refl).
Defined.

(** X14: the only exception the formatter can raise is the one [float()]
    raises on the [price_per_item] value of a row that has a brand and a
    product name. *)
Theorem fallback_raises_only_on_price df e :
  format_dataframe_simple df = Exn e ->
  exists row v,
    In row (iterrows df) /\
    has_key (py "brand") row = true /\
    has_key (py "product_name") row = true /\
    lookup (py "price_per_item") row = Some v /\
    cell_float v = Exn e.
Proof.
  unfold format_dataframe_simple. destruct (df_empty df); [discriminate|].
  intros H. apply render_rows_raises in H as [row [Hin Hr]].
  unfold render_row in Hr.
  destruct (has_key (py "brand") row) eqn:Hb;
    destruct (has_key (py "product_name") row) eqn:Hp;
    cbn [andb] in Hr; try discriminate Hr.
  apply labelled_row_raises in Hr as [v [Hv Hf]].
  exists row, v. auto.
Qed.

Lemma fallback_raises_only_on_price_witness :
  format_dataframe_simple (pd_DataFrame [tagged_price_row])
  = Exn (py "could not convert string to float: '$19.50'")
  /\
  exists row v,
    In row (iterrows (pd_DataFrame [tagged_price_row])) /\
    has_key (py "brand") row = true /\
    has_key (py "product_name") row = true /\
    lookup (py "price_per_item") row = Some v /\
    cell_float v = Exn (py "could not convert string to float: '$19.50'").
Proof.
  assert (format_dataframe_simple (pd_DataFrame [tagged_price_row])
          = Exn (py "could not convert string to float: '$19.50'"))
    as H by (vm_compute; reflexivity).
  split; [exact H|].
  exact (fallback_raises_only_on_price _ _ H).
Defined.

(** X16: a frame that lacks the brand column or the product name column
    is rendered entirely in the generic shape, one "column: value" line
    per row joined by " | ", and this never raises. *)
Theorem fallback_generic_without_product_columns df :
  df_empty df = false ->
  existsb (str_eqb (py "brand")) (columns df) = false \/
  existsb (str_eqb (py "product_name")) (columns df) = false ->
  format_dataframe_simple df =
  Ok (found_header (df_len df)
      ++ List.concat (map generic_row (iterrows df))).
Proof.
  intros He H.
  rewrite (format_generic_rows df He); [reflexivity|].
  intros row Hin. apply andb_false_iff.
  destruct H as [H|H]; [left|right];
    (destruct (has_key _ row) eqn:E; [|reflexivity]);
    apply (has_key_iterrows _ _ _ Hin) in E; congruence.
Qed.

Lemma fallback_generic_without_product_columns_witness :
  df_empty (pd_DataFrame [count_row]) = false /\
  (existsb (str_eqb (py "brand")) (columns (pd_DataFrame [count_row])) = false
   \/
   existsb (str_eqb (py "product_name"))
     (columns (pd_DataFrame [count_row])) = false) /\
  format_dataframe_simple (pd_DataFrame [count_row]) =
  Ok (found_header (df_len (pd_DataFrame [count_row]))
      ++ List.concat (map generic_row (iterrows (pd_DataFrame [count_row])))).
Proof.
  assert (existsb (str_eqb (py "brand")) (columns (pd_DataFrame [count_row]))
          = false \/
          existsb (str_eqb (py "product_name"))
            (columns (pd_DataFrame [count_row])) = false) as H
    by (left; reflexivity).
  split; [reflexivity|]. split; [exact H|].
  exact (fallback_generic_without_product_columns
           (pd_DataFrame [count_row]) eq_refl H).
Defined.

(** ** [main]: the "Get Answer" button *)

(** X17: however a request ends, normally or in a fault, it has called
    the model at most twice, tried to connect at most once and executed
    at most one statement: nothing is ever retried. *)
Theorem request_call_budget env question w :
  exists r evs l,
    main_get_answer env question w = (r, after w evs l) /\
    (count is_model_call evs <= 2)%nat /\
    (count is_connect evs <= 1)%nat /\
    (count is_execute evs <= 1)%nat.
Proof.
  destruct (main_paths env question w) as [r [evs [l [H [Hm [Hc [He _]]]]]]].
  exists r, evs, l. auto.
Qed.

(** X18: a request never leaves a connection open behind it, whether it
    ends normally or in a fault. *)
Theorem request_leaves_no_open_connection env question w :
  conn w <> Connected ->
  conn (snd (main_get_answer env question w)) <> Connected.
Proof.
  intros Hw.
  destruct (main_paths env question w) as [r [evs [l [-> [_ [_ [_ Hl]]]]]]].
  cbn [snd after conn].
  destruct Hl as [->|[->| ->]]; [exact Hw | discriminate | discriminate].
Qed.

Lemma request_leaves_no_open_connection_witness :
  conn fresh <> Connected /\
  conn (snd (main_get_answer (sample_env [tagged_price_row] (Exn (py "quota")))
               sample_question fresh)) <> Connected.
Proof.
  assert (conn fresh <> Connected) as H by discriminate.
  split; [exact H|].
  exact (request_leaves_no_open_connection
           (sample_env [tagged_price_row] (Exn (py "quota")))
           sample_question fresh H).
Defined.

(** X19: a database failure whose message is the empty string is not
    reported as a failure: the error is falsy, and the request answers
    that it found no matching results. *)
Theorem empty_message_failure_reads_as_no_results
    env question raw st alive w :
  question <> [] ->
  generate_content env (translation_prompt env question) = Ok raw ->
  startswith (py "Error") (extract_sql raw) = false ->
  connect env = Acquired ->
  run_sql env (extract_sql raw) = Fails st [] alive ->
  exists w',
    main_get_answer env question w = (Ok tt, w') /\
    answer_text (trace w') =
    Some (py "I couldn't find any matching results for your question.").
Proof.
  intros Hq Hg He Hc Hr.
  pose proof (translation_succeeds env question raw w Hg) as Ht.
  pose proof (execute_query_fails env (extract_sql raw) st [] alive
                (after w [ModelCall (translation_prompt env question)]
                   (conn w)) Hc Hr) as Hx.
  match type of Hx with
  | _ = (_, ?w2) =>
      pose proof (format_response_nothing env question None (Some []) w2
                    eq_refl eq_refl) as Hf
  end.
  eexists. split.
  - apply (main_proceeds _ _ _ _ _ _ _ _ _ _ Hq Ht He Hx Hf).
  - unfold after. cbn [trace]. rewrite answer_text_app. reflexivity.
Qed.

Lemma empty_message_failure_reads_as_no_results_witness :
  sample_question <> [] /\
  generate_content (rejecting_env AtExecute [] true)
    (translation_prompt (rejecting_env AtExecute [] true) sample_question)
  = Ok select_all /\
  startswith (py "Error") (extract_sql select_all) = false /\
  connect (rejecting_env AtExecute [] true) = Acquired /\
  run_sql (rejecting_env AtExecute [] true) (extract_sql select_all)
  = Fails AtExecute [] true /\
  exists w',
    main_get_answer (rejecting_env AtExecute [] true) sample_question fresh
    = (Ok tt, w') /\
    answer_text (trace w') =
    Some (py "I couldn't find any matching results for your question.").
Proof.
  assert (sample_question <> []) as Hq by (vm_compute; discriminate).
  assert (generate_content (rejecting_env AtExecute [] true)
            (translation_prompt (rejecting_env AtExecute [] true)
               sample_question) = Ok select_all) as Hg
    by (vm_compute; reflexivity).
  assert (startswith (py "Error") (extract_sql select_all) = false) as He
    by (vm_compute; reflexivity).
  split; [exact Hq|]. split; [exact Hg|]. split; [exact He|].
  split; [reflexivity|]. split; [reflexivity|].
  exact (empty_message_failure_reads_as_no_results
           (rejecting_env AtExecute [] true) sample_question select_all
           AtExecute true fresh Hq Hg He eq_refl eq_refl).
Defined.

(** X20: when the statement fails with a message, the request shows the
    apology with that message through [st.success], then the generated
    SQL, and no raw rows; the connection is closed before anything is
    shown, unless the failure lost it. *)
Theorem execution_failure_is_shown_with_sql
    env question raw st e alive w :
  question <> [] ->
  generate_content env (translation_prompt env question) = Ok raw ->
  startswith (py "Error") (extract_sql raw) = false ->
  connect env = Acquired ->
  run_sql env (extract_sql raw) = Fails st e alive ->
  e <> [] ->
  main_get_answer env question w =
  (Ok tt,
   after w
     ([ModelCall (translation_prompt env question); DbConnect] ++
      calls_until st (extract_sql raw) ++
      ConnPing :: (if alive then [ConnClose] else []) ++
      [StSubheader (py "Answer:");
       StSuccess
         (py "I apologize, but I encountered an error processing your question: "
          ++ e);
       StMarkdown (py "**Generated SQL Query:**");
       StCode (extract_sql raw)])
     (if alive then Closed else Dropped)).
Proof.
  intros Hq Hg He Hc Hr Hne.
  pose proof (translation_succeeds env question raw w Hg) as Ht.
  pose proof (execute_query_fails env (extract_sql raw) st e alive
                (after w [ModelCall (translation_prompt env question)]
                   (conn w)) Hc Hr) as Hx.
  match type of Hx with
  | _ = (_, ?w2) =>
      pose proof (format_response_error env question None e w2 Hne) as Hf
  end.
  rewrite (main_proceeds _ _ _ _ _ _ _ _ _ _ Hq Ht He Hx Hf).
  rewrite !after_after. cbn [conn after app].
  rewrite <- !app_assoc. reflexivity.
Qed.

Lemma execution_failure_is_shown_with_sql_witness :
  sample_question <> [] /\
  generate_content (rejecting_env AtExecute (py "Unknown column") true)
    (translation_prompt (rejecting_env AtExecute (py "Unknown column") true)
       sample_question)
  = Ok select_all /\
  startswith (py "Error") (extract_sql select_all) = false /\
  connect (rejecting_env AtExecute (py "Unknown column") true) = Acquired /\
  run_sql (rejecting_env AtExecute (py "Unknown column") true)
    (extract_sql select_all)
  = Fails AtExecute (py "Unknown column") true /\
  py "Unknown column" <> [] /\
  answer_text
    (trace (snd (main_get_answer
                   (rejecting_env AtExecute (py "Unknown column") true)
                   sample_question fresh)))
  = Some (py "I apologize, but I encountered an error processing your question: Unknown column").
Proof.
  assert (sample_question <> []) as Hq by (vm_compute; discriminate).
  assert (generate_content (rejecting_env AtExecute (py "Unknown column") true)
            (translation_prompt
               (rejecting_env AtExecute (py "Unknown column") true)
               sample_question) = Ok select_all) as Hg
    by (vm_compute; reflexivity).
  assert (startswith (py "Error") (extract_sql select_all) = false) as He
    by (vm_compute; reflexivity).
  assert (py "Unknown column" <> []) as Hne by (vm_compute; discriminate).
  split; [exact Hq|]. split; [exact Hg|]. split; [exact He|].
  split; [reflexivity|]. split; [reflexivity|]. split; [exact Hne|].
  rewrite (execution_failure_is_shown_with_sql
             (rejecting_env AtExecute (py "Unknown column") true)
             sample_question select_all AtExecute (py "Unknown column") true
             fresh Hq Hg He eq_refl eq_refl Hne).
  vm_compute. reflexivity.
Defined.

(** X21: when the database cannot be reached, the request shows the
    cause with [st.error], then the apology "Database connection failed"
    as its answer and the generated SQL; no cursor is opened and nothing
    is executed. *)
Theorem refused_connection_request env question raw e w :
  question <> [] ->
  generate_content env (translation_prompt env question) = Ok raw ->
  startswith (py "Error") (extract_sql raw) = false ->
  connect env = Refused e ->
  main_get_answer env question w =
  (Ok tt,
   after w
     [ModelCall (translation_prompt env question);
      DbConnect;
      StError (py "Database connection failed: " ++ e);
      StSubheader (py "Answer:");
      StSuccess
        (py "I apologize, but I encountered an error processing your question: "
         ++ py "Database connection failed");
      StMarkdown (py "**Generated SQL Query:**");
      StCode (extract_sql raw)]
     (conn w)).
Proof.
  intros Hq Hg He Hc.
  pose proof (translation_succeeds env question raw w Hg) as Ht.
  pose proof (execute_query_refused env (extract_sql raw) e
                (after w [ModelCall (translation_prompt env question)]
                   (conn w)) Hc) as Hx.
  assert (py "Database connection failed" <> []) as Hne by discriminate.
  match type of Hx with
  | _ = (_, ?w2) =>
      pose proof (format_response_error env question None
                    (py "Database connection failed") w2 Hne) as Hf
  end.
  rewrite (main_proceeds _ _ _ _ _ _ _ _ _ _ Hq Ht He Hx Hf).
  rewrite !after_after. reflexivity.
Qed.

Lemma refused_connection_request_witness :
  sample_question <> [] /\
  generate_content (unreachable_env (py "Access denied"))
    (translation_prompt (unreachable_env (py "Access denied")) sample_question)
  = Ok select_all /\
  startswith (py "Error") (extract_sql select_all) = false /\
  connect (unreachable_env (py "Access denied")) = Refused (py "Access denied")
  /\
  conn (snd (main_get_answer (unreachable_env (py "Access denied"))
               sample_question fresh)) = Unopened.
Proof.
  assert (sample_question <> []) as Hq by (vm_compute; discriminate).
  assert (generate_content (unreachable_env (py "Access denied"))
            (translation_prompt (unreachable_env (py "Access denied"))
               sample_question) = Ok select_all) as Hg
    by (vm_compute; reflexivity).
  assert (startswith (py "Error") (extract_sql select_all) = false) as He
    by (vm_compute; reflexivity).
  split; [exact Hq|]. split; [exact Hg|]. split; [exact He|].
  split; [reflexivity|].
  rewrite (refused_connection_request (unreachable_env (py "Access denied"))
             sample_question select_all (py "Access denied") fresh
             Hq Hg He eq_refl).
  reflexivity.
Defined.

(** X22: a request whose rows the model narrates: the statement is
    executed and the connection closed before the second model call is
    made; then the cleaned narration is shown as the answer, followed by
    the generated SQL and the raw rows. *)
Theorem narrated_request_trace env question raw r rs text w :
  question <> [] ->
  generate_content env (translation_prompt env question) = Ok raw ->
  startswith (py "Error") (extract_sql raw) = false ->
  connect env = Acquired ->
  run_sql env (extract_sql raw) = Rows (r :: rs) ->
  generate_content env
    (response_prompt env question (pd_DataFrame (frame_rows env (r :: rs)))) = Ok text ->
  main_get_answer env question w =
  (Ok tt,
   after w
     [ModelCall (translation_prompt env question);
      DbConnect; DbCursor; DbExecute (extract_sql raw); DbFetchall;
      CursorClose; ConnClose;
      ModelCall (response_prompt env question (pd_DataFrame (frame_rows env (r :: rs))));
      StSubheader (py "Answer:");
      StSuccess (clean_text (strip text));
      StMarkdown (py "**Generated SQL Query:**");
      StCode (extract_sql raw);
      StMarkdown (py "**Raw Query Results:**");
      StDataframe (pd_DataFrame (frame_rows env (r :: rs)))]
     Closed).
Proof.
  intros Hq Hg He Hc Hr Hn.
  pose proof (translation_succeeds env question raw w Hg) as Ht.
  pose proof (execute_query_rows env (extract_sql raw) (r :: rs)
                (after w [ModelCall (translation_prompt env question)]
                   (conn w)) Hc Hr) as Hx.
  match type of Hx with
  | _ = (_, ?w2) =>
      pose proof (format_response_narrated env question r rs text w2 Hn)
        as Hf
  end.
  rewrite (main_proceeds _ _ _ _ _ _ _ _ _ _ Hq Ht He Hx Hf).
  rewrite !after_after. reflexivity.
Qed.

Lemma narrated_request_trace_witness :
  sample_question <> [] /\
  generate_content (sample_env [nike_row] (Ok (py "We have one.")))
    (translation_prompt (sample_env [nike_row] (Ok (py "We have one.")))
       sample_question)
  = Ok select_all /\
  startswith (py "Error") (extract_sql select_all) = false /\
  connect (sample_env [nike_row] (Ok (py "We have one."))) = Acquired /\
  run_sql (sample_env [nike_row] (Ok (py "We have one.")))
    (extract_sql select_all) = Rows [nike_row] /\
  generate_content (sample_env [nike_row] (Ok (py "We have one.")))
    (response_prompt (sample_env [nike_row] (Ok (py "We have one.")))
       sample_question (pd_DataFrame [nike_row]))
  = Ok (py "We have one.") /\
  answer_text
    (trace (snd (main_get_answer
                   (sample_env [nike_row] (Ok (py "We have one.")))
                   sample_question fresh)))
  = Some (py "We have one.").
Proof.
  assert (sample_question <> []) as Hq by (vm_compute; discriminate).
  assert (generate_content (sample_env [nike_row] (Ok (py "We have one.")))
            (translation_prompt
               (sample_env [nike_row] (Ok (py "We have one.")))
               sample_question) = Ok select_all) as Hg
    by (vm_compute; reflexivity).
  assert (startswith (py "Error") (extract_sql select_all) = false) as He
    by (vm_compute; reflexivity).
  assert (generate_content (sample_env [nike_row] (Ok (py "We have one.")))
            (response_prompt (sample_env [nike_row] (Ok (py "We have one.")))
               sample_question (pd_DataFrame [nike_row]))
          = Ok (py "We have one.")) as Hn
    by (vm_compute; reflexivity).
  split; [exact Hq|]. split; [exact Hg|]. split; [exact He|].
  split; [reflexivity|]. split; [reflexivity|]. split; [exact Hn|].
  rewrite (narrated_request_trace
             (sample_env [nike_row] (Ok (py "We have one.")))
             sample_question select_all nike_row [] (py "We have one.") fresh
             Hq Hg He eq_refl eq_refl Hn).
  vm_compute. reflexivity.
Defined.

(** ** [main]: the "Quick Stats" panel *)

(** X23: the panel never raises: whatever the connection, the cursor,
    a query or a returned row does, it ends normally. *)
Theorem quick_stats_never_raises panel s :
  exists s', main_quick_stats panel s = (Ok tt, s').
Proof.
  destruct (connect (panel_env panel)) as [|e|e] eqn:Hc;
    [| eexists; apply (quick_stats_refused_eq _ _ _ Hc)
     | eexists; apply (quick_stats_escapes_eq _ _ _ Hc)].
  destruct (open_cursor panel) as [[e alive]|] eqn:Ho.
  - destruct (quick_stats_fails panel s Hc) as [e' [evs [l [H _]]]];
      [left; congruence | eauto].
  - destruct (collect_stats_paths panel queries [] s)
      as [[vs [Hvs _]]|[e [evs [l [_ [Hn _]]]]]].
    + eexists. apply (quick_stats_runs _ _ _ Hc Ho Hvs).
    + destruct (quick_stats_fails panel s Hc) as [e' [evs' [l' [H _]]]];
        [now right | eauto].
Qed.

(** X24: when the cursor opens and each of the five queries yields its
    value, the panel executes the five queries once each, in the order of
    the dict, each followed by one [fetchone]; it then closes the cursor
    and the connection, and only then shows the five metrics, in order,
    with those values. *)
Theorem quick_stats_shows_all_metrics panel vs s :
  connect (panel_env panel) = Acquired ->
  open_cursor panel = None ->
  map (entry_of panel) queries = map Ok vs ->
  main_quick_stats panel s =
  (Ok tt,
   screen_after s
     ([Shared DbConnect; Shared DbCursor] ++ flat_map query_calls queries ++
      [Shared CursorClose; Shared ConnClose] ++ metrics vs) Closed).
Proof. apply quick_stats_runs. Qed.

Lemma quick_stats_shows_all_metrics_witness :
  connect (panel_env sample_panel) = Acquired /\
  open_cursor sample_panel = None /\
  map (entry_of sample_panel) queries =
  map Ok [py "12"; py "12"; py "12"; py "12"; py "$19.50"] /\
  main_quick_stats sample_panel blank_screen =
  (Ok tt,
   screen_after blank_screen
     ([Shared DbConnect; Shared DbCursor] ++ flat_map query_calls queries ++
      [Shared CursorClose; Shared ConnClose] ++
      metrics [py "12"; py "12"; py "12"; py "12"; py "$19.50"]) Closed).
Proof.
  assert (map (entry_of sample_panel) queries =
          map Ok [py "12"; py "12"; py "12"; py "12"; py "$19.50"]) as H
    by (vm_compute; reflexivity).
  split; [reflexivity|]. split; [reflexivity|]. split; [exact H|].
  exact (quick_stats_shows_all_metrics sample_panel _ blank_screen
           eq_refl eq_refl H).
Defined.

(** X25: when the cursor does not open, or a query, a [fetchone], a
    missing column or the formatting of the average raises, the panel
    shows "Error loading stats: " with the cause and nothing else: no
    metric is shown, and [close()] is never called, so the connection
    stays open unless the failure itself lost it. *)
Theorem quick_stats_failure_leaves_connection_open panel s :
  connect (panel_env panel) = Acquired ->
  open_cursor panel <> None \/
  (forall vs, map (entry_of panel) queries <> map Ok vs) ->
  exists e evs l,
    main_quick_stats panel s =
    (Ok tt,
     screen_after s
       (evs ++ [Shared (StError (py "Error loading stats: " ++ e))]) l) /\
    existsb is_metric evs = false /\
    existsb is_panel_close evs = false /\
    (l = Connected \/ (l = Dropped /\ drops panel)).
Proof. apply quick_stats_fails. Qed.

Lemma quick_stats_failure_leaves_connection_open_witness :
  connect (panel_env broken_panel) = Acquired /\
  (open_cursor broken_panel <> None \/
   (forall vs, map (entry_of broken_panel) queries <> map Ok vs)) /\
  exists e evs l,
    main_quick_stats broken_panel blank_screen =
    (Ok tt,
     screen_after blank_screen
       (evs ++ [Shared (StError (py "Error loading stats: " ++ e))]) l) /\
    existsb is_metric evs = false /\
    existsb is_panel_close evs = false /\
    (l = Connected \/ (l = Dropped /\ drops broken_panel)).
Proof.
  assert (open_cursor broken_panel <> None \/
          (forall vs, map (entry_of broken_panel) queries <> map Ok vs)) as H.
  { right. intros [|v vs] E; vm_compute in E; discriminate E. }
  split; [reflexivity|]. split; [exact H|].
  exact (quick_stats_failure_leaves_connection_open broken_panel blank_screen
           eq_refl H).
Defined.

(** X26: when the database cannot be reached, the panel shows two
    errors, the cause and then "Database connection failed. Cannot load
    stats.", and neither opens a cursor nor runs a query. *)
Theorem quick_stats_refused panel e s :
  connect (panel_env panel) = Refused e ->
  main_quick_stats panel s =
  (Ok tt,
   screen_after s
     [Shared DbConnect;
      Shared (StError (py "Database connection failed: " ++ e));
      Shared (StError (py "Database connection failed. Cannot load stats."))]
     (wire s)).
Proof. apply quick_stats_refused_eq. Qed.

Lemma quick_stats_refused_witness :
  connect (panel_env unreachable_panel)
  = Refused (py "Can't connect to MySQL server") /\
  main_quick_stats unreachable_panel blank_screen =
  (Ok tt,
   screen_after blank_screen
     [Shared DbConnect;
      Shared (StError (py "Database connection failed: "
                       ++ py "Can't connect to MySQL server"));
      Shared (StError (py "Database connection failed. Cannot load stats."))]
     (wire blank_screen)).
Proof.
  split; [reflexivity|].
  exact (quick_stats_refused unreachable_panel
           (py "Can't connect to MySQL server") blank_screen eq_refl).
Defined.
